(** * Session thinking budget: the /think and /budget commands

    A shallow embedding of
      - packages/core/src/services/sessionThinkingState.ts
      - packages/cli/src/ui/commands/thinkCommand.ts
      - packages/cli/src/ui/commands/budgetCommand.ts
    together with the JavaScript built-ins the two command handlers call
    ([String.prototype.trim], [toLowerCase], [parseInt], [isNaN],
    [Number.prototype.toString], the comparison operators), and the
    properties of the handlers that the specification states. *)

From Stdlib Require Import ZArith String Ascii List Bool Lia.
From Stdlib Require Import Decimal DecimalString DecimalPos Floats.SpecFloat.
Import ListNotations.

Local Open Scope string_scope.
Local Open Scope Z_scope.

(** ** JavaScript strings

    A string is a sequence of code units; the model keeps the code units
    0..255 (one [ascii] each, read as Latin-1), which covers every
    character the handlers inspect: white space, letters, sign and
    digits. *)
Module JsString.

(** White space and line terminators stripped by [trim] and skipped by
    [parseInt]: TAB, LF, VT, FF, CR, SP and NBSP (the ones below U+0100). *)
Definition isWhiteSpace (c : ascii) : bool :=
  let n := nat_of_ascii c in
  (Nat.eqb n 9 || Nat.eqb n 10 || Nat.eqb n 11 || Nat.eqb n 12 ||
   Nat.eqb n 13 || Nat.eqb n 32 || Nat.eqb n 160)%bool.

Fixpoint trimStart (s : string) : string :=
  match s with
  | EmptyString => EmptyString
  | String c r => if isWhiteSpace c then trimStart r else s
  end.

Definition isEmpty (s : string) : bool :=
  match s with EmptyString => true | String _ _ => false end.

Fixpoint trimEnd (s : string) : string :=
  match s with
  | EmptyString => EmptyString
  | String c r =>
      let r' := trimEnd r in
      if (isWhiteSpace c && isEmpty r')%bool then EmptyString else String c r'
  end.

(** [s.trim()] *)
Definition trim (s : string) : string := trimEnd (trimStart s).

(** Lower-casing of one code unit: A..Z, and the Latin-1 capitals
    U+00C0..U+00DE except the multiplication sign U+00D7. *)
Definition lowerChar (c : ascii) : ascii :=
  let n := nat_of_ascii c in
  if ((Nat.leb 65 n && Nat.leb n 90) ||
      (Nat.leb 192 n && Nat.leb n 222 && negb (Nat.eqb n 215)))%bool
  then ascii_of_nat (n + 32) else c.

(** [s.toLowerCase()] *)
Fixpoint toLowerCase (s : string) : string :=
  match s with
  | EmptyString => EmptyString
  | String c r => String (lowerChar c) (toLowerCase r)
  end.

(** Every code unit of [s] satisfies [p]. *)
Fixpoint all (p : ascii -> bool) (s : string) : bool :=
  match s with
  | EmptyString => true
  | String c r => (p c && all p r)%bool
  end.

End JsString.

(** ** JavaScript numbers

    The handlers only meet the numbers [parseInt] returns and the integer
    constants of the core package: NaN, the infinities, and doubles whose
    value is an integer.  [Finite z] is the double of integer value [z]
    ([z] is then representable in binary64); the two zeros are one value
    here, as they are for [===], [<], [>] and [toString], the only
    operations applied to them. *)
Module JsNumber.

Inductive number : Type :=
  | NaN
  | Finite (z : Z)
  | Infinity (negative : bool).

Definition isNaN (x : number) : bool :=
  match x with NaN => true | _ => false end.

(** [x < y] *)
Definition lt (x y : number) : bool :=
  match x, y with
  | NaN, _ | _, NaN => false
  | Finite a, Finite b => a <? b
  | Finite _, Infinity neg => negb neg
  | Infinity neg, Finite _ => neg
  | Infinity a, Infinity b => (a && negb b)%bool
  end.

(** [x > y] *)
Definition gt (x y : number) : bool := lt y x.

(** [x <= y] *)
Definition le (x y : number) : bool :=
  match x, y with
  | NaN, _ | _, NaN => false
  | Finite a, Finite b => a <=? b
  | Finite _, Infinity neg => negb neg
  | Infinity neg, Finite _ => neg
  | Infinity a, Infinity b => (a || negb b)%bool
  end.

(** [x === y] on numbers *)
Definition strictEq (x y : number) : bool :=
  match x, y with
  | Finite a, Finite b => a =? b
  | Infinity a, Infinity b => Bool.eqb a b
  | _, _ => false
  end.

(** The double nearest to the integer [v], ties to the even significand
    (53 bits); from 2^1024 on the result is an infinity. *)
Definition ofInteger (v : Z) : number :=
  let a := Z.abs v in
  if a <? 2 ^ 53 then Finite v
  else
    let e := Z.log2 a - 52 in
    let q := a / 2 ^ e in
    let r := a mod 2 ^ e in
    let half := 2 ^ (e - 1) in
    let q' := if r <? half then q
              else if half <? r then q + 1
              else if Z.even q then q else q + 1 in
    let m := q' * 2 ^ e in
    if 2 ^ 1024 <=? m then Infinity (v <? 0) else Finite (Z.sgn v * m).

(** The same conversion through the Standard Library's model of IEEE 754
    arithmetic, at the binary64 format; [ofInteger] is checked against it
    on the cases that matter below. *)
Definition binary64 (v : Z) : number :=
  match binary_normalize 53 1024 v 0 false with
  | S754_zero _ => Finite 0
  | S754_infinity s => Infinity s
  | S754_nan => NaN
  | S754_finite s m e =>
      let a := if 0 <=? e then Z.pos m * 2 ^ e else Z.pos m / 2 ^ (- e) in
      Finite (if s then - a else a)
  end.

(** The decimal digits of an integer, with a leading minus sign when it is
    negative. *)
Definition decimal (z : Z) : string := NilZero.string_of_int (Z.to_int z).

(** [Number.prototype.toString] prints the shortest decimal numeral that
    converts back to the same double.  For the double of integer value
    [z > 0] the numeral is an integer [s * 10^j] with [j] as large as
    possible; at a given [j] only the two multiples of [10^j] around [z]
    can convert to [z], and the nearer one is taken. *)
Definition roundsTo (c z : Z) : bool := strictEq (ofInteger c) (Finite z).

Definition shortestAt (z p : Z) : option Z :=
  let lo := z / p * p in
  let hi := lo + p in
  match roundsTo lo z, roundsTo hi z with
  | true, true =>
      Some (if z - lo <? hi - z then lo
            else if hi - z <? z - lo then hi
            else if Z.even (lo / p) then lo else hi)
  | true, false => Some lo
  | false, true => Some hi
  | false, false => None
  end.

Fixpoint shortestFrom (j : nat) (z : Z) : Z :=
  match shortestAt z (10 ^ Z.of_nat j) with
  | Some c => c
  | None => match j with O => z | S j' => shortestFrom j' z end
  end.

Definition shortest (z : Z) : Z := shortestFrom (String.length (decimal z)) z.

(** The digits of [s] without its trailing zeros. *)
Fixpoint stripZeros (s : string) : string :=
  match s with
  | EmptyString => EmptyString
  | String c r =>
      let r' := stripZeros r in
      if (Ascii.eqb c "0" && JsString.isEmpty r')%bool
      then EmptyString else String c r'
  end.

(** The numeral of a positive double of integer value: plain digits below
    10^21, exponent notation from there on. *)
Definition positiveToString (z : Z) : string :=
  let c := shortest z in
  let digits := decimal c in
  if c <? 10 ^ 21 then digits
  else
    let n := Z.of_nat (String.length digits) in
    match stripZeros digits with
    | String d EmptyString => String d ("e+" ++ decimal (n - 1))
    | String d rest => String d ("." ++ rest ++ "e+" ++ decimal (n - 1))
    | EmptyString => EmptyString
    end.

(** [x.toString()], also the conversion a template literal applies. *)
Definition toString (x : number) : string :=
  match x with
  | NaN => "NaN"
  | Infinity false => "Infinity"
  | Infinity true => "-Infinity"
  | Finite z =>
      if z =? 0 then "0"
      else if z <? 0 then "-" ++ positiveToString (- z)
      else positiveToString z
  end.

(** The decimal digit a code unit stands for, as the constructor that puts
    it in front of a numeral. *)
Definition digitOf (c : ascii) : option (uint -> uint) :=
  match c with
  | "0"%char => Some D0 | "1"%char => Some D1 | "2"%char => Some D2
  | "3"%char => Some D3 | "4"%char => Some D4 | "5"%char => Some D5
  | "6"%char => Some D6 | "7"%char => Some D7 | "8"%char => Some D8
  | "9"%char => Some D9
  | _ => None
  end.

(** The longest prefix of [s] made of decimal digits. *)
Fixpoint digitPrefix (s : string) : uint :=
  match s with
  | EmptyString => Nil
  | String c r =>
      match digitOf c with
      | Some d => d (digitPrefix r)
      | None => Nil
      end
  end.

(** [parseInt(s, 10)]: leading white space is skipped, one sign is read,
    then the longest run of digits; no digit gives NaN, and whatever
    follows the digits is ignored.  The digits denote an integer, which
    is converted to a double. *)
Definition parseInt (s : string) : number :=
  let s1 := JsString.trimStart s in
  let '(negative, s2) :=
    match s1 with
    | String "-" r => (true, r)
    | String "+" r => (false, r)
    | _ => (false, s1)
    end in
  match digitPrefix s2 with
  | Nil => NaN
  | ds => let mathInt := Z.of_uint ds in
          ofInteger (if negative then - mathInt else mathInt)
  end.

End JsNumber.

Import JsString JsNumber.

(** ** packages/core/src/services/sessionThinkingState.ts *)

(** The class has one private field, [activeOverride : number | null],
    initially [null]. *)
Record SessionThinkingState : Type := {
  activeOverride : option number
}.

Definition newSessionThinkingState : SessionThinkingState :=
  {| activeOverride := None |}.

Definition setOverride (this : SessionThinkingState) (budget : option number)
  : SessionThinkingState :=
  {| activeOverride := budget |}.

Definition getActiveOverride (this : SessionThinkingState) : option number :=
  activeOverride this.

Definition clearOverride (this : SessionThinkingState) : SessionThinkingState :=
  {| activeOverride := None |}.

Definition hasOverride (this : SessionThinkingState) : bool :=
  match activeOverride this with Some _ => true | None => false end.

(** ** What the commands import *)

(** Modelled from the spec: the configuration facade, class [Config] of the
    core package, of which only the use by the commands is at hand: its
    [setSessionThinkingBudget] and [getSessionThinkingBudget] write and
    read the session's [SessionThinkingState] cell. *)
Record Config : Type := {
  sessionThinkingState : SessionThinkingState
}.

Definition setSessionThinkingBudget (this : Config) (budget : option number)
  : Config :=
  {| sessionThinkingState := setOverride (sessionThinkingState this) budget |}.

Definition getSessionThinkingBudget (this : Config) : option number :=
  getActiveOverride (sessionThinkingState this).

(** Modelled from the spec: [THINKING_BUDGET_UNLIMITED] and
    [THINKING_BUDGET_OFF] of the core package, imported by both commands:
    -1 stands for unlimited and 0 for disabled (so does the doc comment of
    [setOverride]). *)
Definition THINKING_BUDGET_UNLIMITED : Z := -1.
Definition THINKING_BUDGET_OFF : Z := 0.

(** The other imported constants are integers whose values the files do
    not give; the commands are parametric in them. *)
Class ThinkingBudgets : Type := {
  THINKING_BUDGET_LOW : Z;
  THINKING_BUDGET_MEDIUM : Z;
  THINKING_BUDGET_HIGH : Z;
  DEFAULT_THINKING_MODE : Z
}.

(** The values the command descriptions quote (2048, 8192, 16384, and 8192
    for the default), used for concrete runs. *)
Definition quotedBudgets : ThinkingBudgets := {|
  THINKING_BUDGET_LOW := 2048;
  THINKING_BUDGET_MEDIUM := 8192;
  THINKING_BUDGET_HIGH := 16384;
  DEFAULT_THINKING_MODE := 8192
|}.

(** ** packages/cli/src/ui/commands/types.ts, as far as the commands use it *)

Inductive MessageType : Type := info | error.

(** [{ type: 'message', messageType, content }] *)
Record SlashCommandActionReturn : Type := {
  type : string;
  messageType : MessageType;
  content : string
}.

Record Services : Type := {
  config : option Config
}.

Record CommandContext : Type := {
  services : Services
}.

(** An action is an effectful function of the context and the argument
    string: the effect is on the configuration object the context refers
    to, so the action returns the context after the call beside its
    message. *)
Definition Action : Type :=
  CommandContext -> string -> CommandContext * SlashCommandActionReturn.

Inductive CommandKind : Type := BUILT_IN.

#[local] Unset Elimination Schemes.
Inductive SlashCommand : Type := {
  name : string;
  altNames : list string;
  description : string;
  kind : CommandKind;
  autoExecute : bool;
  subCommands : list SlashCommand;
  action : Action
}.
#[local] Set Elimination Schemes.

(** [context.services.config?.setSessionThinkingBudget(budget)]: nothing
    happens when there is no configuration object. *)
Definition config_setSessionThinkingBudget
    (context : CommandContext) (budget : number) : CommandContext :=
  match config (services context) with
  | Some c =>
      {| services := {| config := Some (setSessionThinkingBudget c (Some budget)) |} |}
  | None => context
  end.

(** [context.services.config?.getSessionThinkingBudget()]: [undefined]
    when there is no configuration object.  [None] stands for both [null]
    and [undefined], which every reader below treats alike. *)
Definition config_getSessionThinkingBudget (context : CommandContext)
  : option number :=
  match config (services context) with
  | Some c => getSessionThinkingBudget c
  | None => None
  end.

Definition createMessage (messageType : MessageType) (content : string)
  : SlashCommandActionReturn :=
  {| type := "message"; messageType := messageType; content := content |}.

(** The line feed and the double quote of the message literals. *)
Definition LF : string := String (ascii_of_nat 10) EmptyString.
Definition DQUOTE : string := String (ascii_of_nat 34) EmptyString.

Section Commands.

Context {budgets : ThinkingBudgets}.

(** ** packages/cli/src/ui/commands/thinkCommand.ts *)

Definition getBudgetLabel (budget : number) : string :=
  if strictEq budget (Finite THINKING_BUDGET_UNLIMITED) then "UNLIMITED"
  else if strictEq budget (Finite THINKING_BUDGET_OFF) then "OFF"
  else if le budget (Finite THINKING_BUDGET_LOW) then "LOW"
  else if le budget (Finite THINKING_BUDGET_MEDIUM) then "MEDIUM"
  else if le budget (Finite THINKING_BUDGET_HIGH) then "HIGH"
  else "EXTREME".

Definition agentNote : string :=
  "Note: Agents like CodebaseInvestigator use their own thinking budgets for optimal performance.".

Definition think_on : Action := fun context _ =>
  let context := config_setSessionThinkingBudget context (Finite DEFAULT_THINKING_MODE) in
  (context,
   createMessage info
     ("Extended Thinking enabled (MEDIUM: " ++ toString (Finite DEFAULT_THINKING_MODE)
        ++ " tokens)" ++ LF ++ agentNote)).

Definition think_off : Action := fun context _ =>
  let context := config_setSessionThinkingBudget context (Finite THINKING_BUDGET_OFF) in
  (context, createMessage info "Extended Thinking disabled").

Definition think_low : Action := fun context _ =>
  let context := config_setSessionThinkingBudget context (Finite THINKING_BUDGET_LOW) in
  (context,
   createMessage info
     ("Extended Thinking set to LOW (" ++ toString (Finite THINKING_BUDGET_LOW)
        ++ " tokens)" ++ LF ++ agentNote)).

Definition think_medium : Action := fun context _ =>
  let context := config_setSessionThinkingBudget context (Finite THINKING_BUDGET_MEDIUM) in
  (context,
   createMessage info
     ("Extended Thinking set to MEDIUM (" ++ toString (Finite THINKING_BUDGET_MEDIUM)
        ++ " tokens)" ++ LF ++ agentNote)).

Definition think_high : Action := fun context _ =>
  let context := config_setSessionThinkingBudget context (Finite THINKING_BUDGET_HIGH) in
  (context,
   createMessage info
     ("Extended Thinking set to HIGH (" ++ toString (Finite THINKING_BUDGET_HIGH)
        ++ " tokens)" ++ LF ++ agentNote)).

Definition think_unlimited : Action := fun context _ =>
  let context :=
    config_setSessionThinkingBudget context (Finite THINKING_BUDGET_UNLIMITED) in
  (context,
   createMessage info ("Extended Thinking set to UNLIMITED" ++ LF ++ agentNote)).

Definition think_status : Action := fun context _ =>
  let budget := config_getSessionThinkingBudget context in
  match budget with
  | None =>
      (context,
       createMessage info
         "Extended Thinking: Using model defaults (MEDIUM: 8192 tokens)")
  | Some budget =>
      if strictEq budget (Finite THINKING_BUDGET_UNLIMITED) then
        (context, createMessage info "Extended Thinking: UNLIMITED")
      else if strictEq budget (Finite THINKING_BUDGET_OFF) then
        (context, createMessage info "Extended Thinking: DISABLED")
      else
        (context,
         createMessage info
           ("Extended Thinking: " ++ toString budget ++ " tokens ("
              ++ getBudgetLabel budget ++ ")"))
  end.

(** The default action, run when no subcommand is selected: a numeric
    budget, or the toggle for an empty argument. *)
Definition think_action : Action := fun context args =>
  let trimmedArgs := toLowerCase (trim args) in
  let numericBudget := parseInt trimmedArgs in
  if (negb (isNaN numericBudget)
      && String.eqb trimmedArgs (toString numericBudget))%bool then
    if lt numericBudget (Finite (-1)) then
      (context,
       createMessage error
         "Budget must be -1 (unlimited), 0 (disabled), or a positive number")
    else if gt numericBudget (Finite 32768) then
      (context,
       createMessage error
         "Budget must be 32768 tokens or less (or -1 for unlimited)")
    else
      let context := config_setSessionThinkingBudget context numericBudget in
      if strictEq numericBudget (Finite THINKING_BUDGET_UNLIMITED) then
        (context, createMessage info "Extended Thinking set to UNLIMITED")
      else if strictEq numericBudget (Finite THINKING_BUDGET_OFF) then
        (context, createMessage info "Extended Thinking disabled")
      else
        (context,
         createMessage info
           ("Extended Thinking set to " ++ toString numericBudget ++ " tokens ("
              ++ getBudgetLabel numericBudget ++ ")"))
  else if isEmpty trimmedArgs then
    let current := config_getSessionThinkingBudget context in
    if match current with
       | None => true
       | Some current => gt current (Finite THINKING_BUDGET_OFF)
       end
    then
      let context :=
        config_setSessionThinkingBudget context (Finite THINKING_BUDGET_OFF) in
      (context, createMessage info "Extended Thinking disabled")
    else
      let context :=
        config_setSessionThinkingBudget context (Finite DEFAULT_THINKING_MODE) in
      (context,
       createMessage info
         ("Extended Thinking enabled (MEDIUM: "
            ++ toString (Finite DEFAULT_THINKING_MODE) ++ " tokens)"))
  else
    (context,
     createMessage error
       "Usage: /think [on|off|low|medium|high|unlimited|<number>|status]").

Definition subCommand (name : string) (altNames : list string)
    (description : string) (action : Action) : SlashCommand :=
  {| name := name; altNames := altNames; description := description;
     kind := BUILT_IN; autoExecute := true; subCommands := []; action := action |}.

Definition thinkCommand : SlashCommand := {|
  name := "think";
  altNames := [];
  description := "Control Extended Thinking mode for the session";
  kind := BUILT_IN;
  autoExecute := false;
  subCommands := [
    subCommand "on" [] "Enable thinking with default budget (8192 tokens)" think_on;
    subCommand "off" [] "Disable Extended Thinking" think_off;
    subCommand "low" [] "Set thinking to low level (~2048 tokens)" think_low;
    subCommand "medium" [] "Set thinking to medium level (~8192 tokens)" think_medium;
    subCommand "high" [] "Set thinking to high level (~16384 tokens)" think_high;
    subCommand "unlimited" ["max"; "extreme"] "Enable unlimited thinking" think_unlimited;
    subCommand "status" [] "Show current thinking configuration" think_status
  ];
  action := think_action
|}.

(** ** packages/cli/src/ui/commands/budgetCommand.ts *)

Definition budget_action : Action := fun context args =>
  let trimmedArgs := toLowerCase (trim args) in
  if isEmpty trimmedArgs then
    let current := config_getSessionThinkingBudget context in
    let message := "Thinking Budget: " in
    let message :=
      match current with
      | None =>
          message ++ "Default (" ++ toString (Finite DEFAULT_THINKING_MODE) ++ " tokens)"
      | Some current =>
          if strictEq current (Finite THINKING_BUDGET_UNLIMITED) then
            message ++ "Unlimited"
          else if strictEq current (Finite THINKING_BUDGET_OFF) then
            message ++ "Disabled (0 tokens)"
          else message ++ toString current ++ " tokens"
      end in
    let message :=
      message ++ LF ++ LF ++ "Use /stats to see token usage for this session." in
    (context, createMessage info message)
  else if (String.eqb trimmedArgs "unlimited" || String.eqb trimmedArgs "max")%bool then
    let context :=
      config_setSessionThinkingBudget context (Finite THINKING_BUDGET_UNLIMITED) in
    (context,
     createMessage info
       ("Thinking budget set to unlimited" ++ LF
          ++ "Note: This may increase latency and API costs."))
  else if (String.eqb trimmedArgs "off" || String.eqb trimmedArgs "disabled")%bool then
    let context :=
      config_setSessionThinkingBudget context (Finite THINKING_BUDGET_OFF) in
    (context, createMessage info "Thinking budget disabled")
  else
    let numericBudget := parseInt trimmedArgs in
    if isNaN numericBudget then
      (context,
       createMessage error
         ("Budget must be a number, " ++ DQUOTE ++ "unlimited" ++ DQUOTE ++ ", "
            ++ DQUOTE ++ "off" ++ DQUOTE ++ ", or " ++ DQUOTE ++ "disabled" ++ DQUOTE
            ++ "." ++ LF ++ "Example: /budget 4096" ++ LF
            ++ "Use /think for preset levels (low/medium/high)."))
    else if lt numericBudget (Finite (-1)) then
      (context,
       createMessage error
         "Budget must be -1 (unlimited), 0 (disabled), or a positive number")
    else if gt numericBudget (Finite 32768) then
      (context,
       createMessage error
         "Budget must be 32768 tokens or less (or -1 for unlimited)")
    else
      let context := config_setSessionThinkingBudget context numericBudget in
      let label :=
        if strictEq numericBudget (Finite THINKING_BUDGET_UNLIMITED) then "unlimited"
        else if strictEq numericBudget (Finite THINKING_BUDGET_OFF) then "disabled"
        else toString numericBudget ++ " tokens" in
      (context, createMessage info ("Thinking budget set to " ++ label)).

Definition budgetCommand : SlashCommand := {|
  name := "budget";
  altNames := [];
  description := "Set thinking token budget. Usage: /budget <tokens>";
  kind := BUILT_IN;
  autoExecute := false;
  subCommands := [];
  action := budget_action
|}.

End Commands.

(** ** Vocabulary of the properties *)

(** Code units that [trim] keeps and [toLowerCase] leaves alone. *)
Definition plainChar (c : ascii) : bool :=
  (negb (isWhiteSpace c) && Ascii.eqb (lowerChar c) c)%bool.

(** A context whose configuration object holds the given cell content,
    and the context without configuration object. *)
Definition contextHolding (stored : option number) : CommandContext :=
  {| services :=
       {| config := Some {| sessionThinkingState := {| activeOverride := stored |} |} |} |}.

Definition contextWithoutConfig : CommandContext :=
  {| services := {| config := None |} |}.

(** The budgets the data model allows: -1, 0, or a positive integer up to
    32768. *)
Definition allowedBudget (z : Z) : Prop :=
  z = -1 \/ z = 0 \/ 0 < z <= 32768.

Definition validBudget (v : number) : Prop :=
  exists z, v = Finite z /\ allowedBudget z.

(** The invariant of the data model, on a context: what can be read from
    it is an allowed budget. *)
Definition storedValid (context : CommandContext) : Prop :=
  forall v, config_getSessionThinkingBudget context = Some v -> validBudget v.

(** What an action may do to the context: nothing, or one write of an
    allowed budget. *)
Inductive effect (context : CommandContext) : CommandContext -> Prop :=
  | effect_none : effect context context
  | effect_set (v : number) :
      validBudget v -> effect context (config_setSessionThinkingBudget context v).

(** The three error messages. *)
Definition belowRangeError : SlashCommandActionReturn :=
  createMessage error
    "Budget must be -1 (unlimited), 0 (disabled), or a positive number".

Definition aboveRangeError : SlashCommandActionReturn :=
  createMessage error
    "Budget must be 32768 tokens or less (or -1 for unlimited)".

Definition thinkUsageError : SlashCommandActionReturn :=
  createMessage error
    "Usage: /think [on|off|low|medium|high|unlimited|<number>|status]".

(** The actions a command offers: its own and those of its subcommands.
    Whatever the dispatcher selects for an input line is one of them. *)
Definition actionsOf (c : SlashCommand) : list Action :=
  action c :: map action (subCommands c).

(** A run of the session: each call is an action with its argument
    string, and the context is threaded through. *)
Definition invoke (context : CommandContext) (call : Action * string)
  : CommandContext :=
  fst (fst call context (snd call)).

Definition run (calls : list (Action * string)) (context : CommandContext)
  : CommandContext :=
  fold_left invoke calls context.


(** A use of the cell: a call of [setOverride] or of [clearOverride]. *)
Inductive CellOp : Type :=
  | OpSet (budget : option number)
  | OpClear.

Definition applyOp (cell : SessionThinkingState) (op : CellOp)
  : SessionThinkingState :=
  match op with
  | OpSet budget => setOverride cell budget
  | OpClear => clearOverride cell
  end.

Definition applyOps (ops : list CellOp) (cell : SessionThinkingState)
  : SessionThinkingState :=
  fold_left applyOp ops cell.

(** The order of the tiers a positive budget can be labelled with. *)
Definition tierRank (label : string) : nat :=
  if String.eqb label "LOW" then 1
  else if String.eqb label "MEDIUM" then 2
  else if String.eqb label "HIGH" then 3
  else if String.eqb label "EXTREME" then 4
  else 0.

(** * Properties *)

(** ** Numbers: conversion from integers *)

Lemma ofInteger_small (v : Z) :
  Z.abs v < 2 ^ 53 -> ofInteger v = Finite v.
Proof.
  intros H. unfold ofInteger.
  destruct (Z.ltb_spec (Z.abs v) (2 ^ 53)); [reflexivity | lia].
Qed.

(** From 2^53 on the double keeps the sign and a magnitude of at least
    2^53. *)
Lemma ofInteger_large (v : Z) :
  2 ^ 53 <= Z.abs v ->
  ofInteger v = Infinity (v <? 0) \/
  exists m, 2 ^ 53 <= m /\ ofInteger v = Finite (Z.sgn v * m).
Proof.
  intros H. unfold ofInteger.
  destruct (Z.ltb_spec (Z.abs v) (2 ^ 53)) as [Hlt | _]; [lia |].
  set (a := Z.abs v) in *.
  set (e := Z.log2 a - 52).
  set (q := a / 2 ^ e).
  set (q' := if a mod 2 ^ e <? 2 ^ (e - 1) then q
             else if 2 ^ (e - 1) <? a mod 2 ^ e then q + 1
             else if Z.even q then q else q + 1).
  destruct (2 ^ 1024 <=? q' * 2 ^ e); [left; reflexivity | right].
  exists (q' * 2 ^ e). split; [| reflexivity].
  assert (Hlog : 53 <= Z.log2 a).
  { change 53 with (Z.log2 (2 ^ 53)). apply Z.log2_le_mono. exact H. }
  assert (He : 1 <= e) by (unfold e; lia).
  assert (Hpe : 2 <= 2 ^ e).
  { change 2 with (2 ^ 1) at 1. apply Z.pow_le_mono_r; lia. }
  assert (Hsplit : 2 ^ Z.log2 a = 2 ^ 52 * 2 ^ e).
  { unfold e. rewrite <- Z.pow_add_r by lia. f_equal. lia. }
  assert (Ha : 2 ^ Z.log2 a <= a) by (apply Z.log2_spec; lia).
  assert (Hq : 2 ^ 52 <= q).
  { unfold q. apply Z.div_le_lower_bound; lia. }
  assert (Hq' : q <= q').
  { unfold q'. repeat match goal with |- context [if ?b then _ else _] => destruct b end; lia. }
  nia.
Qed.

Example ofInteger_agrees_with_binary64 :
  forallb (fun v => strictEq (ofInteger v) (binary64 v)
                    && strictEq (ofInteger (- v)) (binary64 (- v)))%bool
    [0; 1; 5; 32768; 32769; 2 ^ 53 - 1; 2 ^ 53; 2 ^ 53 + 1; 2 ^ 53 + 2;
     2 ^ 53 + 3; 2 ^ 54 + 2; 2 ^ 54 + 6; 99999999999999999999;
     123456789012345678901; 10 ^ 21; 10 ^ 23; 2 ^ 1024 - 2 ^ 970 - 1;
     2 ^ 1024 - 2 ^ 970; 2 ^ 1024; 10 ^ 400]
  = true.
Proof. vm_compute. reflexivity. Qed.

(** The comparisons of the range checks see through the conversion. *)
Lemma ofInteger_lt_minus_one (v : Z) :
  lt (ofInteger v) (Finite (-1)) = (v <? -1).
Proof.
  destruct (Z.lt_ge_cases (Z.abs v) (2 ^ 53)) as [Hs | Hl].
  - rewrite ofInteger_small by assumption. reflexivity.
  - destruct (ofInteger_large v Hl) as [-> | (m & Hm & ->)]; simpl.
    + destruct (Z.ltb_spec v 0), (Z.ltb_spec v (-1)); lia.
    + destruct (Z.ltb_spec (Z.sgn v * m) (-1)), (Z.ltb_spec v (-1)); nia.
Qed.

Lemma ofInteger_gt_32768 (v : Z) :
  gt (ofInteger v) (Finite 32768) = (32768 <? v).
Proof.
  unfold gt.
  destruct (Z.lt_ge_cases (Z.abs v) (2 ^ 53)) as [Hs | Hl].
  - rewrite ofInteger_small by assumption. reflexivity.
  - destruct (ofInteger_large v Hl) as [-> | (m & Hm & ->)]; simpl.
    + destruct (Z.ltb_spec v 0), (Z.ltb_spec 32768 v); simpl; lia.
    + destruct (Z.ltb_spec 32768 (Z.sgn v * m)), (Z.ltb_spec 32768 v); nia.
Qed.

Lemma ofInteger_not_NaN (v : Z) : isNaN (ofInteger v) = false.
Proof.
  destruct (Z.lt_ge_cases (Z.abs v) (2 ^ 53)) as [Hs | Hl].
  - rewrite ofInteger_small by assumption. reflexivity.
  - destruct (ofInteger_large v Hl) as [-> | (m & _ & ->)]; reflexivity.
Qed.

(** ** Numbers: printing *)

Lemma roundsTo_small (c z : Z) :
  0 < z < 2 ^ 53 -> roundsTo c z = true -> c = z.
Proof.
  intros Hz. unfold roundsTo.
  destruct (Z.lt_ge_cases (Z.abs c) (2 ^ 53)) as [Hs | Hl].
  - rewrite ofInteger_small by assumption. simpl. apply Z.eqb_eq.
  - destruct (ofInteger_large c Hl) as [-> | (m & Hm & ->)]; simpl.
    + discriminate.
    + intros H. apply Z.eqb_eq in H. nia.
Qed.

Lemma shortestAt_small (z p c : Z) :
  0 < z < 2 ^ 53 -> shortestAt z p = Some c -> c = z.
Proof.
  intros Hz. unfold shortestAt.
  destruct (roundsTo (z / p * p) z) eqn:Hlo;
    destruct (roundsTo (z / p * p + p) z) eqn:Hhi;
    try discriminate; intros [= <-];
    try apply (roundsTo_small _ _ Hz) in Hlo;
    try apply (roundsTo_small _ _ Hz) in Hhi;
    repeat match goal with |- context [if ?b then _ else _] => destruct b end;
    assumption.
Qed.

Lemma shortestFrom_small (j : nat) (z : Z) :
  0 < z < 2 ^ 53 -> shortestFrom j z = z.
Proof.
  intros Hz. induction j as [| j IH]; simpl.
  - destruct (shortestAt z 1) eqn:E; [eapply shortestAt_small; eauto | reflexivity].
  - destruct (shortestAt z _) eqn:E; [eapply shortestAt_small; eauto | exact IH].
Qed.

Lemma positiveToString_small (z : Z) :
  0 < z < 2 ^ 53 -> positiveToString z = decimal z.
Proof.
  intros Hz. unfold positiveToString, shortest.
  rewrite shortestFrom_small by assumption.
  destruct (Z.ltb_spec z (10 ^ 21)) as [_ | Hge]; [reflexivity |].
  assert (2 ^ 53 < 10 ^ 21) by reflexivity. lia.
Qed.

(** A double that holds an integer below 2^53 in magnitude prints as the
    decimal numeral of that integer. *)
Lemma toString_small (z : Z) :
  Z.abs z < 2 ^ 53 -> toString (Finite z) = decimal z.
Proof.
  intros Hz. unfold toString.
  destruct z as [| p | p]; simpl Z.eqb; cbv iota.
  - reflexivity.
  - simpl Z.ltb. cbv iota. apply positiveToString_small. lia.
  - simpl Z.ltb. cbv iota. rewrite positiveToString_small by (simpl; lia).
    reflexivity.
Qed.

Example toString_examples :
  map (fun v => toString (ofInteger v))
    [0; -1; 32768; 2 ^ 53 + 1; 2 ^ 63; 10 ^ 21; 2 ^ 70; - 2 ^ 100; 2 ^ 1024]
  = ["0"; "-1"; "32768"; "9007199254740992"; "9223372036854776000"; "1e+21";
     "1.1805916207174113e+21"; "-1.2676506002282294e+30"; "Infinity"].
Proof. vm_compute. reflexivity. Qed.

Example parseInt_examples :
  map parseInt ["4096"; " -1"; "+5"; "007"; "5.9"; "12abc"; "-0"; "0x10";
                "abc"; "-"; ""; "infinity"]
  = [Finite 4096; Finite (-1); Finite 5; Finite 7; Finite 5; Finite 12;
     Finite 0; Finite 0; NaN; NaN; NaN; NaN].
Proof. reflexivity. Qed.

(** ** Decimal numerals as argument strings *)

Lemma digitPrefix_string_of_uint (d : uint) :
  digitPrefix (NilEmpty.string_of_uint d) = d.
Proof.
  induction d; simpl; congruence.
Qed.

(** The shape of [decimal z]: the digits of a numeral without leading
    zero (unless it is zero itself), after a minus sign when [z < 0]. *)
Lemma decimal_shape (z : Z) :
  exists d : uint,
    d <> Nil /\
    ((0 <= z /\ decimal z = NilEmpty.string_of_uint d /\ Z.of_uint d = z) \/
     (z < 0 /\ decimal z = String "-" (NilEmpty.string_of_uint d)
      /\ Z.of_uint d = - z)).
Proof.
  destruct z as [| p | p].
  - exists (D0 Nil). split; [discriminate |]. left. repeat split; lia.
  - exists (Pos.to_uint p).
    pose proof (DecimalPos.Unsigned.to_uint_nonnil p) as Hn.
    split; [exact Hn |]. left. split; [lia |]. split.
    + unfold decimal, Z.to_int, NilZero.string_of_int, NilZero.string_of_uint.
      destruct (Pos.to_uint p); [congruence | reflexivity ..].
    + unfold Z.of_uint. rewrite DecimalPos.Unsigned.of_to. reflexivity.
  - exists (Pos.to_uint p).
    pose proof (DecimalPos.Unsigned.to_uint_nonnil p) as Hn.
    split; [exact Hn |]. right. split; [lia |]. split.
    + unfold decimal, Z.to_int, NilZero.string_of_int, NilZero.string_of_uint.
      destruct (Pos.to_uint p); [congruence | reflexivity ..].
    + unfold Z.of_uint. rewrite DecimalPos.Unsigned.of_to. reflexivity.
Qed.

Lemma trimEnd_plain (s : string) :
  JsString.all plainChar s = true -> trimEnd s = s.
Proof.
  induction s as [| c r IH]; simpl; [reflexivity |].
  intros H. apply andb_true_iff in H as [Hc Hr].
  apply andb_true_iff in Hc as [Hw _]. apply negb_true_iff in Hw.
  rewrite Hw, (IH Hr). reflexivity.
Qed.

Lemma trim_plain (s : string) :
  JsString.all plainChar s = true -> trim s = s.
Proof.
  intros H. unfold trim.
  assert (Hs : trimStart s = s).
  { destruct s as [| c r]; simpl in *; [reflexivity |].
    apply andb_true_iff in H as [Hc _].
    apply andb_true_iff in Hc as [Hw _]. apply negb_true_iff in Hw.
    rewrite Hw. reflexivity. }
  rewrite Hs. apply trimEnd_plain, H.
Qed.

Lemma toLowerCase_plain (s : string) :
  JsString.all plainChar s = true -> toLowerCase s = s.
Proof.
  induction s as [| c r IH]; simpl; [reflexivity |].
  intros H. apply andb_true_iff in H as [Hc Hr].
  apply andb_true_iff in Hc as [_ Hl]. apply Ascii.eqb_eq in Hl.
  rewrite Hl, (IH Hr). reflexivity.
Qed.

Lemma string_of_uint_plain (d : uint) :
  JsString.all plainChar (NilEmpty.string_of_uint d) = true.
Proof.
  induction d; simpl; try rewrite IHd; reflexivity.
Qed.

Lemma decimal_plain (z : Z) : JsString.all plainChar (decimal z) = true.
Proof.
  destruct (decimal_shape z) as (d & _ & [(_ & -> & _) | (_ & -> & _)]).
  - apply string_of_uint_plain.
  - simpl. rewrite string_of_uint_plain. reflexivity.
Qed.

(** Trimming and lower-casing leave a decimal numeral as it is. *)
Lemma normalize_decimal (z : Z) : toLowerCase (trim (decimal z)) = decimal z.
Proof.
  rewrite trim_plain by apply decimal_plain.
  apply toLowerCase_plain, decimal_plain.
Qed.

Lemma decimal_nonempty (z : Z) : isEmpty (decimal z) = false.
Proof.
  destruct (decimal_shape z) as (d & Hd & [(_ & -> & _) | (_ & -> & _)]).
  - destruct d; try reflexivity. congruence.
  - reflexivity.
Qed.

(** No numeral is one of the keywords of /budget. *)
Lemma decimal_not_keyword (z : Z) (k : string) :
  In k ["unlimited"; "max"; "off"; "disabled"] ->
  String.eqb (decimal z) k = false.
Proof.
  intros Hk.
  destruct (decimal_shape z) as (d & Hd & [(_ & -> & _) | (_ & -> & _)]);
    simpl in Hk; intuition subst; try (destruct d; reflexivity); reflexivity.
Qed.

(** [parseInt] reads a decimal numeral as the integer it denotes,
    converted to a double. *)
Lemma parseInt_decimal (z : Z) : parseInt (decimal z) = ofInteger z.
Proof.
  destruct (decimal_shape z) as (d & Hd & [(Hz & -> & Hv) | (Hz & -> & Hv)]).
  - unfold parseInt.
    assert (Hs : forall s, s = NilEmpty.string_of_uint d ->
              trimStart s = s /\
              (match s with
               | String "-" r => (true, r)
               | String "+" r => (false, r)
               | _ => (false, s)
               end) = (false, s)).
    { intros s ->. destruct d; try congruence; split; reflexivity. }
    destruct (Hs _ eq_refl) as [-> ->].
    rewrite digitPrefix_string_of_uint.
    destruct d; try congruence; cbv beta iota zeta; rewrite Hv; reflexivity.
  - unfold parseInt. simpl trimStart. cbv iota beta.
    rewrite digitPrefix_string_of_uint.
    destruct d; try congruence; cbv beta iota zeta; rewrite Hv;
      f_equal; lia.
Qed.

(** ** The cell *)

Lemma getActiveOverride_setOverride
    (cell : SessionThinkingState) (budget : option number) :
  getActiveOverride (setOverride cell budget) = budget.
Proof. reflexivity. Qed.

Lemma clearOverride_absent (cell : SessionThinkingState) :
  getActiveOverride (clearOverride cell) = None /\
  hasOverride (clearOverride cell) = false.
Proof. split; reflexivity. Qed.

(** ** The optional-chained accesses *)

Lemma get_after_set (cfg : Config) (v : number) :
  config_getSessionThinkingBudget
    (config_setSessionThinkingBudget
       {| services := {| config := Some cfg |} |} v) = Some v.
Proof. reflexivity. Qed.

Lemma set_without_config (context : CommandContext) (v : number) :
  config (services context) = None ->
  config_setSessionThinkingBudget context v = context.
Proof.
  intros H. unfold config_setSessionThinkingBudget. rewrite H. reflexivity.
Qed.

Lemma get_without_config (context : CommandContext) :
  config (services context) = None ->
  config_getSessionThinkingBudget context = None.
Proof.
  intros H. unfold config_getSessionThinkingBudget. rewrite H. reflexivity.
Qed.

(** Case analysis on the conditionals of an action. *)
Ltac branch :=
  match goal with
  | |- context [if ?b then _ else _] => destruct b eqn:?
  end.

Section Properties.

Context {budgets : ThinkingBudgets}.

(** ** Numeric arguments *)

(** What the default action of /think does with the numeral of an integer
    below 2^53 in magnitude: the numeral passes the numeric test. *)
Lemma think_action_numeral (context : CommandContext) (n : Z) :
  Z.abs n < 2 ^ 53 ->
  think_action context (decimal n) =
    if n <? -1 then (context, belowRangeError)
    else if 32768 <? n then (context, aboveRangeError)
    else
      let context' := config_setSessionThinkingBudget context (Finite n) in
      if n =? -1 then
        (context', createMessage info "Extended Thinking set to UNLIMITED")
      else if n =? 0 then
        (context', createMessage info "Extended Thinking disabled")
      else
        (context',
         createMessage info
           ("Extended Thinking set to " ++ decimal n ++ " tokens ("
              ++ getBudgetLabel (Finite n) ++ ")")).
Proof.
  intros Hn. unfold think_action.
  rewrite normalize_decimal, parseInt_decimal.
  rewrite (ofInteger_small n Hn), (toString_small n Hn), String.eqb_refl.
  reflexivity.
Qed.

(** What /budget does with the numeral of any integer. *)
Lemma budget_action_numeral (context : CommandContext) (n : Z) :
  budget_action context (decimal n) =
    if n <? -1 then (context, belowRangeError)
    else if 32768 <? n then (context, aboveRangeError)
    else
      (config_setSessionThinkingBudget context (Finite n),
       createMessage info
         ("Thinking budget set to "
            ++ (if n =? -1 then "unlimited"
                else if n =? 0 then "disabled"
                else decimal n ++ " tokens"))).
Proof.
  unfold budget_action.
  rewrite normalize_decimal, decimal_nonempty.
  rewrite !decimal_not_keyword by (simpl; tauto).
  rewrite parseInt_decimal, ofInteger_not_NaN.
  rewrite ofInteger_lt_minus_one, ofInteger_gt_32768.
  simpl orb. cbv iota.
  destruct (Z.ltb_spec n (-1)); [reflexivity |].
  destruct (Z.ltb_spec 32768 n); [reflexivity |].
  assert (Hn : Z.abs n < 2 ^ 53) by lia.
  rewrite (ofInteger_small n Hn), (toString_small n Hn).
  reflexivity.
Qed.

(** C1. For every integer [n] in [-1, 32768], the default action of /think
    and the action of /budget, given the decimal numeral of [n], store
    [n]: reading the session budget through the configuration object
    afterwards yields exactly [n], whatever was stored before. *)
Theorem set_then_read_roundtrip (cfg : Config) (n : Z) :
  -1 <= n <= 32768 ->
  config_getSessionThinkingBudget
    (fst (think_action {| services := {| config := Some cfg |} |} (decimal n)))
    = Some (Finite n) /\
  config_getSessionThinkingBudget
    (fst (budget_action {| services := {| config := Some cfg |} |} (decimal n)))
    = Some (Finite n).
Proof.
  intros Hn. split.
  - rewrite think_action_numeral by lia.
    destruct (Z.ltb_spec n (-1)); [lia |].
    destruct (Z.ltb_spec 32768 n); [lia |].
    cbv zeta. repeat branch; apply get_after_set.
  - rewrite budget_action_numeral.
    destruct (Z.ltb_spec n (-1)); [lia |].
    destruct (Z.ltb_spec 32768 n); [lia |].
    apply get_after_set.
Qed.

(** X16. What the code does with an integer [n] below -1 or above 32768,
    given as its decimal numeral: /budget returns the under-range message
    for [n < -1] and the upper-bound message for [n > 32768]; the default
    action of /think returns that same range message when the numeral
    survives the conversion to a double and back, which it does whenever
    [|n| < 2^53], and falls through to the usage error when it does not;
    the message is error-typed in every case, and neither command changes
    the context, so the stored budget is what it was before the call. *)
Theorem out_of_range_rejected (context : CommandContext) (n : Z) :
  n < -1 \/ 32768 < n ->
  let rangeError := if n <? -1 then belowRangeError else aboveRangeError in
  budget_action context (decimal n) = (context, rangeError) /\
  fst (think_action context (decimal n)) = context /\
  messageType (snd (think_action context (decimal n))) = error /\
  (toString (ofInteger n) = decimal n ->
   think_action context (decimal n) = (context, rangeError)) /\
  (toString (ofInteger n) <> decimal n ->
   think_action context (decimal n) = (context, thinkUsageError)) /\
  (Z.abs n < 2 ^ 53 -> toString (ofInteger n) = decimal n).
Proof.
  intros Hn rangeError. subst rangeError.
  assert (Hthink :
    think_action context (decimal n) =
      if String.eqb (decimal n) (toString (ofInteger n))
      then (context, if n <? -1 then belowRangeError else aboveRangeError)
      else (context, thinkUsageError)).
  { unfold think_action.
    rewrite normalize_decimal, parseInt_decimal, ofInteger_not_NaN,
      ofInteger_lt_minus_one, ofInteger_gt_32768, decimal_nonempty.
    cbn [negb andb].
    destruct (String.eqb (decimal n) (toString (ofInteger n))); [| reflexivity].
    destruct (Z.ltb_spec n (-1)), (Z.ltb_spec 32768 n); try lia; reflexivity. }
  split; [| split; [| split; [| split; [| split]]]].
  - rewrite budget_action_numeral.
    destruct (Z.ltb_spec n (-1)); [reflexivity |].
    destruct (Z.ltb_spec 32768 n); [reflexivity | lia].
  - rewrite Hthink. branch; reflexivity.
  - rewrite Hthink. branch; [destruct (n <? -1) |]; reflexivity.
  - intros E. rewrite Hthink, E, String.eqb_refl. reflexivity.
  - intros E. rewrite Hthink.
    destruct (String.eqb_spec (decimal n) (toString (ofInteger n)));
      [congruence | reflexivity].
  - intros Hs. rewrite ofInteger_small by assumption. apply toString_small, Hs.
Qed.

(** ** Arguments that are not numerals *)

(** An argument in which [parseInt] finds no integer is an error for both
    commands, unless it is empty or a keyword of /budget. *)
Lemma think_action_unparseable (context : CommandContext) (args : string) :
  isEmpty (toLowerCase (trim args)) = false ->
  isNaN (parseInt (toLowerCase (trim args))) = true ->
  think_action context args = (context, thinkUsageError).
Proof.
  intros Hne Hnan. unfold think_action. rewrite Hnan, Hne. reflexivity.
Qed.

Lemma budget_action_unparseable (context : CommandContext) (args : string) :
  let trimmedArgs := toLowerCase (trim args) in
  isEmpty trimmedArgs = false ->
  ~ In trimmedArgs ["unlimited"; "max"; "off"; "disabled"] ->
  isNaN (parseInt trimmedArgs) = true ->
  fst (budget_action context args) = context /\
  messageType (snd (budget_action context args)) = error.
Proof.
  intros t Hne Hk Hnan. subst t. unfold budget_action.
  rewrite Hne, Hnan.
  repeat match goal with
  | |- context [String.eqb ?a ?b] =>
      destruct (String.eqb_spec a b) as [E | _];
        [exfalso; apply Hk; rewrite E; simpl; tauto |]
  end.
  split; reflexivity.
Qed.

(** C10. The default action of /think takes an argument for a number only
    when the trimmed, lower-cased argument is exactly what its parsed
    number prints as.  Among the arguments in which [parseInt] finds an
    integer, one that is not that canonical numeral gets the usage error
    and the context, hence the stored budget, is left as it was; one that
    is canonical never gets the usage error. *)
Theorem think_requires_canonical_numeral
    (context : CommandContext) (args : string) :
  let trimmedArgs := toLowerCase (trim args) in
  isNaN (parseInt trimmedArgs) = false ->
  (trimmedArgs <> toString (parseInt trimmedArgs) ->
   think_action context args = (context, thinkUsageError)) /\
  (trimmedArgs = toString (parseInt trimmedArgs) ->
   snd (think_action context args) <> thinkUsageError).
Proof.
  intros t Hnum. subst t. unfold think_action. rewrite Hnum.
  destruct (String.eqb_spec (toLowerCase (trim args))
              (toString (parseInt (toLowerCase (trim args))))) as [E | E].
  - split; [contradiction |]. intros _.
    cbn [negb andb]. repeat branch; simpl; discriminate.
  - split; [| contradiction]. intros _. cbn [negb andb].
    destruct (toLowerCase (trim args)) eqn:Et; [discriminate Hnum | reflexivity].
Qed.

Lemma think_action_empty (context : CommandContext) (args : string) :
  trim args = "" ->
  think_action context args =
    if match config_getSessionThinkingBudget context with
       | None => true
       | Some current => gt current (Finite THINKING_BUDGET_OFF)
       end
    then
      (config_setSessionThinkingBudget context (Finite THINKING_BUDGET_OFF),
       createMessage info "Extended Thinking disabled")
    else
      (config_setSessionThinkingBudget context (Finite DEFAULT_THINKING_MODE),
       createMessage info
         ("Extended Thinking enabled (MEDIUM: "
            ++ toString (Finite DEFAULT_THINKING_MODE) ++ " tokens)")).
Proof.
  intros H. unfold think_action. rewrite H. reflexivity.
Qed.

(** C4. With an empty argument (nothing but white space), the default
    action of /think is a toggle, from every stored value: when the
    session budget is absent or strictly greater than 0 it becomes 0 and
    the message is the "disabled" one; otherwise (for an integer: when it
    is 0, -1 or any other value not above 0) it becomes the medium default
    and the message is "enabled (MEDIUM: <default> tokens)". *)
Theorem think_toggle (stored : option number) (args : string) :
  trim args = "" ->
  let turnsOff :=
    match stored with None => True | Some v => gt v (Finite 0) = true end in
  (turnsOff ->
   think_action (contextHolding stored) args =
     (contextHolding (Some (Finite 0)),
      createMessage info "Extended Thinking disabled")) /\
  (~ turnsOff ->
   think_action (contextHolding stored) args =
     (contextHolding (Some (Finite DEFAULT_THINKING_MODE)),
      createMessage info
        ("Extended Thinking enabled (MEDIUM: "
           ++ toString (Finite DEFAULT_THINKING_MODE) ++ " tokens)"))) /\
  (forall z : Z, stored = Some (Finite z) -> (turnsOff <-> 0 < z)).
Proof.
  intros Hargs turnsOff. subst turnsOff.
  rewrite (think_action_empty _ _ Hargs).
  change (config_getSessionThinkingBudget (contextHolding stored)) with stored.
  unfold THINKING_BUDGET_OFF.
  split; [| split].
  - destruct stored as [v |]; [intros Hv; rewrite Hv | intros _]; reflexivity.
  - destruct stored as [v |]; [| tauto].
    intros Hv. apply not_true_is_false in Hv. rewrite Hv. reflexivity.
  - intros z ->. unfold gt. simpl. apply Z.ltb_lt.
Qed.

(** C5, as the code has it. With an empty argument and no override
    stored, the default action of /think turns thinking off: the value
    read back afterwards is 0, not the medium default, and the message is
    the "disabled" one. *)
Theorem think_absent_turns_off (cfg : Config) (args : string) :
  trim args = "" ->
  getSessionThinkingBudget cfg = None ->
  let result := think_action {| services := {| config := Some cfg |} |} args in
  config_getSessionThinkingBudget (fst result) = Some (Finite 0) /\
  snd result = createMessage info "Extended Thinking disabled".
Proof.
  intros Hargs Habsent result. subst result.
  rewrite (think_action_empty _ _ Hargs).
  change (config_getSessionThinkingBudget {| services := {| config := Some cfg |} |})
    with (getSessionThinkingBudget cfg).
  rewrite Habsent. split; reflexivity.
Qed.

(** ** Labels and status *)

(** C7. For every integer budget [b], the label is UNLIMITED for -1 and
    OFF for 0; for any other [b] it is LOW up to the low threshold,
    else MEDIUM up to the medium threshold, else HIGH up to the high
    threshold, else EXTREME, each "else" meaning that the tests before
    it failed.  With thresholds
    [0 < low < medium < high], a budget exactly at a threshold gets the
    lower tier and one unit above it the next tier. *)
Theorem getBudgetLabel_classification (b : Z) :
  ((b = -1 -> getBudgetLabel (Finite b) = "UNLIMITED") /\
   (b = 0 -> getBudgetLabel (Finite b) = "OFF") /\
   (b <> -1 -> b <> 0 -> b <= THINKING_BUDGET_LOW ->
    getBudgetLabel (Finite b) = "LOW") /\
   (b <> -1 -> b <> 0 -> THINKING_BUDGET_LOW < b <= THINKING_BUDGET_MEDIUM ->
    getBudgetLabel (Finite b) = "MEDIUM") /\
   (b <> -1 -> b <> 0 -> THINKING_BUDGET_LOW < b ->
    THINKING_BUDGET_MEDIUM < b <= THINKING_BUDGET_HIGH ->
    getBudgetLabel (Finite b) = "HIGH") /\
   (b <> -1 -> b <> 0 -> THINKING_BUDGET_LOW < b ->
    THINKING_BUDGET_MEDIUM < b -> THINKING_BUDGET_HIGH < b ->
    getBudgetLabel (Finite b) = "EXTREME")) /\
  (0 < THINKING_BUDGET_LOW < THINKING_BUDGET_MEDIUM ->
   THINKING_BUDGET_MEDIUM < THINKING_BUDGET_HIGH ->
   getBudgetLabel (Finite THINKING_BUDGET_LOW) = "LOW" /\
   getBudgetLabel (Finite (THINKING_BUDGET_LOW + 1)) = "MEDIUM" /\
   getBudgetLabel (Finite THINKING_BUDGET_MEDIUM) = "MEDIUM" /\
   getBudgetLabel (Finite (THINKING_BUDGET_MEDIUM + 1)) = "HIGH" /\
   getBudgetLabel (Finite THINKING_BUDGET_HIGH) = "HIGH" /\
   getBudgetLabel (Finite (THINKING_BUDGET_HIGH + 1)) = "EXTREME").
Proof.
  assert (label : forall x : Z,
    getBudgetLabel (Finite x) =
      if x =? -1 then "UNLIMITED" else if x =? 0 then "OFF"
      else if x <=? THINKING_BUDGET_LOW then "LOW"
      else if x <=? THINKING_BUDGET_MEDIUM then "MEDIUM"
      else if x <=? THINKING_BUDGET_HIGH then "HIGH" else "EXTREME")
    by reflexivity.
  repeat split; intros; rewrite label;
    repeat match goal with
    | |- context [?x =? ?y] => destruct (Z.eqb_spec x y); try lia
    | |- context [?x <=? ?y] => destruct (Z.leb_spec x y); try lia
    end; reflexivity.
Qed.

(** C8. When no session budget can be read (no override stored, or no
    configuration object), /think status returns the info message with
    the fixed text about model defaults, "MEDIUM: 8192 tokens", whatever
    the value of the default constant is, and leaves the context as it
    was. *)
Theorem think_status_absent (context : CommandContext) (args : string) :
  config_getSessionThinkingBudget context = None ->
  think_status context args =
    (context,
     createMessage info
       "Extended Thinking: Using model defaults (MEDIUM: 8192 tokens)").
Proof.
  intros H. unfold think_status. rewrite H. reflexivity.
Qed.

(** ** Values that pass the range checks *)

Lemma in_range_valid (v : number) :
  isNaN v = false -> lt v (Finite (-1)) = false -> gt v (Finite 32768) = false ->
  validBudget v.
Proof.
  destruct v as [| z | negative]; simpl; intros Hn Hlo Hhi.
  - discriminate.
  - exists z. split; [reflexivity |]. unfold gt in Hhi. simpl in Hhi.
    apply Z.ltb_ge in Hlo, Hhi. unfold allowedBudget. lia.
  - unfold gt in Hhi. simpl in Hhi. destruct negative; discriminate.
Qed.

End Properties.

(** ** The invariant of the stored budget

    The presets and the default are written by the subcommands and the
    toggle, so the invariant needs them to be allowed budgets. *)
Section Invariant.

Context {budgets : ThinkingBudgets}.

Hypothesis low_allowed : allowedBudget THINKING_BUDGET_LOW.
Hypothesis medium_allowed : allowedBudget THINKING_BUDGET_MEDIUM.
Hypothesis high_allowed : allowedBudget THINKING_BUDGET_HIGH.
Hypothesis default_allowed : allowedBudget DEFAULT_THINKING_MODE.

Lemma constant_valid (z : Z) : allowedBudget z -> validBudget (Finite z).
Proof. intros H. exists z. split; [reflexivity | exact H]. Qed.

Lemma off_valid : validBudget (Finite THINKING_BUDGET_OFF).
Proof. apply constant_valid. unfold allowedBudget, THINKING_BUDGET_OFF. lia. Qed.

Lemma unlimited_valid : validBudget (Finite THINKING_BUDGET_UNLIMITED).
Proof.
  apply constant_valid. unfold allowedBudget, THINKING_BUDGET_UNLIMITED. lia.
Qed.

Lemma think_action_effect (context : CommandContext) (args : string) :
  effect context (fst (think_action context args)).
Proof.
  unfold think_action.
  set (t := toLowerCase (trim args)).
  destruct (negb (isNaN (parseInt t)) && String.eqb t (toString (parseInt t)))%bool
    eqn:Hnum.
  - apply andb_true_iff in Hnum as [Hnan _]. apply negb_true_iff in Hnan.
    destruct (lt (parseInt t) (Finite (-1))) eqn:Hlo; [apply effect_none |].
    destruct (gt (parseInt t) (Finite 32768)) eqn:Hhi; [apply effect_none |].
    repeat branch; apply effect_set, in_range_valid; assumption.
  - destruct (isEmpty t); [| apply effect_none].
    branch; apply effect_set;
      [apply off_valid | apply constant_valid, default_allowed].
Qed.

Lemma budget_action_effect (context : CommandContext) (args : string) :
  effect context (fst (budget_action context args)).
Proof.
  unfold budget_action.
  set (t := toLowerCase (trim args)).
  destruct (isEmpty t); [apply effect_none |].
  branch; [apply effect_set, unlimited_valid |].
  branch; [apply effect_set, off_valid |].
  destruct (isNaN (parseInt t)) eqn:Hnan; [apply effect_none |].
  destruct (lt (parseInt t) (Finite (-1))) eqn:Hlo; [apply effect_none |].
  destruct (gt (parseInt t) (Finite 32768)) eqn:Hhi; [apply effect_none |].
  apply effect_set, in_range_valid; assumption.
Qed.

Lemma action_effect (a : Action) (context : CommandContext) (args : string) :
  In a (actionsOf thinkCommand ++ actionsOf budgetCommand) ->
  effect context (fst (a context args)).
Proof.
  simpl. intros H.
  repeat (destruct H as [<- | H]); try contradiction.
  - apply think_action_effect.
  - apply effect_set, constant_valid, default_allowed.
  - apply effect_set, off_valid.
  - apply effect_set, constant_valid, low_allowed.
  - apply effect_set, constant_valid, medium_allowed.
  - apply effect_set, constant_valid, high_allowed.
  - apply effect_set, unlimited_valid.
  - unfold think_status. simpl.
    destruct (config_getSessionThinkingBudget context); [| apply effect_none].
    repeat branch; apply effect_none.
  - apply budget_action_effect.
Qed.

Lemma effect_preserves (context context' : CommandContext) :
  effect context context' -> storedValid context -> storedValid context'.
Proof.
  intros [| v Hv] Hinv; [exact Hinv |].
  intros w. unfold config_setSessionThinkingBudget, config_getSessionThinkingBudget.
  destruct context as [[[cfg |]]]; simpl.
  - intros [= <-]. exact Hv.
  - discriminate.
Qed.

Lemma run_preserves (calls : list (Action * string)) :
  Forall (fun call =>
            In (fst call) (actionsOf thinkCommand ++ actionsOf budgetCommand))
         calls ->
  forall context, storedValid context -> storedValid (run calls context).
Proof.
  induction 1 as [| [a args] calls Ha _ IH]; intros context Hinv.
  - exact Hinv.
  - simpl. apply IH. unfold invoke. simpl.
    eapply effect_preserves; [apply action_effect, Ha | exact Hinv].
Qed.

(** C6. Starting from a context in which no override can be read, after
    any finite sequence of calls of the actions of /think (the default
    action and the subcommands) and of /budget, with arbitrary argument
    strings, the stored session budget, when there is one, is -1, 0, or a
    positive integer up to 32768, provided the imported presets and
    default are such budgets themselves (the hypotheses of this section).
    The cell has no part in this: it stores whatever it is given. *)
Theorem stored_budget_invariant
    (calls : list (Action * string)) (context : CommandContext) :
  Forall (fun call =>
            In (fst call) (actionsOf thinkCommand ++ actionsOf budgetCommand))
         calls ->
  config_getSessionThinkingBudget context = None ->
  (forall v : number,
     config_getSessionThinkingBudget (run calls context) = Some v ->
     exists z : Z, v = Finite z /\ (z = -1 \/ z = 0 \/ 0 < z <= 32768)) /\
  (forall (cell : SessionThinkingState) (budget : option number),
     getActiveOverride (setOverride cell budget) = budget).
Proof.
  intros Hcalls Habsent. split.
  - apply (run_preserves calls Hcalls context).
    intros v Hv. rewrite Habsent in Hv. discriminate.
  - reflexivity.
Qed.

End Invariant.

(** ** A missing configuration object *)

Section MissingConfig.

Context {budgets : ThinkingBudgets}.

Lemma think_action_without_config (args : string) :
  let result := think_action contextWithoutConfig args in
  fst result = contextWithoutConfig /\
  (messageType (snd result) = error ->
   forall context, think_action context args = (context, snd result)).
Proof.
  unfold think_action.
  set (t := toLowerCase (trim args)).
  destruct (negb (isNaN (parseInt t)) && String.eqb t (toString (parseInt t)))%bool.
  - destruct (lt (parseInt t) (Finite (-1))); [split; reflexivity |].
    destruct (gt (parseInt t) (Finite 32768)); [split; reflexivity |].
    repeat branch; (split; [reflexivity | discriminate]).
  - destruct (isEmpty t); [split; [reflexivity | discriminate] |].
    split; reflexivity.
Qed.

Lemma budget_action_without_config (args : string) :
  let result := budget_action contextWithoutConfig args in
  fst result = contextWithoutConfig /\
  (messageType (snd result) = error ->
   forall context, budget_action context args = (context, snd result)).
Proof.
  unfold budget_action.
  set (t := toLowerCase (trim args)).
  destruct (isEmpty t); [split; [reflexivity | discriminate] |].
  branch; [split; [reflexivity | discriminate] |].
  branch; [split; [reflexivity | discriminate] |].
  destruct (isNaN (parseInt t)); [split; reflexivity |].
  destruct (lt (parseInt t) (Finite (-1))); [split; reflexivity |].
  destruct (gt (parseInt t) (Finite 32768)); [split; reflexivity |].
  split; [reflexivity | discriminate].
Qed.

(** C9. When the context has no configuration object, every action of
    /think and /budget, for every argument string, still returns a
    message; the context is left as it is and no budget can be read from
    it afterwards (the accesses do nothing); and if the message is an
    error, the same error is returned for the same argument from every
    other context, which is left unchanged as well: the error comes from
    the argument alone, never from the missing object. *)
Theorem missing_config_is_silent (a : Action) (args : string) :
  In a (actionsOf thinkCommand ++ actionsOf budgetCommand) ->
  let result := a contextWithoutConfig args in
  type (snd result) = "message" /\
  fst result = contextWithoutConfig /\
  config_getSessionThinkingBudget (fst result) = None /\
  (messageType (snd result) = error ->
   forall context : CommandContext, a context args = (context, snd result)).
Proof.
  intros Ha result.
  assert (H : fst result = contextWithoutConfig /\
              (messageType (snd result) = error ->
               forall context, a context args = (context, snd result))).
  { subst result. simpl in Ha.
    repeat (destruct Ha as [<- | Ha]); try contradiction;
      try (split; [reflexivity | discriminate]).
    - apply think_action_without_config.
    - apply budget_action_without_config. }
  destruct H as [Hfst Herr].
  split; [| split; [exact Hfst | split; [rewrite Hfst; reflexivity | exact Herr]]].
  subst result. simpl in Ha.
  repeat (destruct Ha as [<- | Ha]); try contradiction; try reflexivity.
  - unfold think_action. repeat branch; reflexivity.
  - unfold budget_action. repeat branch; reflexivity.
Qed.

End MissingConfig.

(** ** Concrete runs

    With the budgets the command descriptions quote. *)

(** C1 at [n = 4096], from an empty cell. *)
Lemma set_then_read_roundtrip_witness :
  -1 <= 4096 <= 32768 /\
  config_getSessionThinkingBudget
    (fst (@think_action quotedBudgets (contextHolding None) "4096"))
    = Some (Finite 4096) /\
  config_getSessionThinkingBudget
    (fst (@budget_action quotedBudgets (contextHolding None) "4096"))
    = Some (Finite 4096).
Proof.
  split; [lia |].
  apply (@set_then_read_roundtrip quotedBudgets
           {| sessionThinkingState := newSessionThinkingState |} 4096).
  lia.
Defined.

(** X16 at [n = 99999], with 5 stored before the call. *)
Lemma out_of_range_rejected_witness :
  @budget_action quotedBudgets (contextHolding (Some (Finite 5))) "99999"
    = (contextHolding (Some (Finite 5)), aboveRangeError) /\
  @think_action quotedBudgets (contextHolding (Some (Finite 5))) "99999"
    = (contextHolding (Some (Finite 5)), aboveRangeError).
Proof.
  destruct (@out_of_range_rejected quotedBudgets
              (contextHolding (Some (Finite 5))) 99999)
    as (Hbudget & _ & _ & Hthink & _ & Hsmall).
  - right. reflexivity.
  - split; [exact Hbudget |]. apply Hthink, Hsmall. reflexivity.
Defined.

(** C2 fails for /think at [n = 2^53 + 1], a defect of the code: the
    numeral parses to the double 2^53, which prints as another numeral,
    so the round-trip test does not take the argument for a number and
    the message is the usage error, where the claim, /budget on the same
    argument, and /think itself on every out-of-range number below 2^53
    give the upper-bound message. *)
Lemma think_huge_numeral_usage_error :
  32768 < 9007199254740993 /\
  decimal 9007199254740993 = "9007199254740993" /\
  toString (parseInt "9007199254740993") = "9007199254740992" /\
  snd (@think_action quotedBudgets (contextHolding None) (decimal 9007199254740993))
    = thinkUsageError /\
  snd (@think_action quotedBudgets (contextHolding None) (decimal 9007199254740993))
    <> aboveRangeError.
Proof.
  split; [reflexivity |]. split; [reflexivity |]. split; [vm_compute; reflexivity |].
  split; [vm_compute; reflexivity |].
  vm_compute. discriminate.
Qed.

(** C3 fails for /budget at the argument "12abc", which is no keyword and
    no number: [parseInt] reads the leading digits, so the command stores
    12 and confirms with an info message instead of returning an error.
    The default action of /think rejects the same argument. *)
Theorem budget_accepts_numeric_prefix :
  @budget_action quotedBudgets (contextHolding None) "12abc"
    = (contextHolding (Some (Finite 12)),
       createMessage info "Thinking budget set to 12 tokens") /\
  @think_action quotedBudgets (contextHolding None) "12abc"
    = (contextHolding None, thinkUsageError).
Proof. split; vm_compute; reflexivity. Qed.

(** C4 from a positive budget and from 0. *)
Lemma think_toggle_witness :
  @think_action quotedBudgets (contextHolding (Some (Finite 4096))) ""
    = (contextHolding (Some (Finite 0)),
       createMessage info "Extended Thinking disabled") /\
  @think_action quotedBudgets (contextHolding (Some (Finite 0))) ""
    = (contextHolding (Some (Finite 8192)),
       createMessage info "Extended Thinking enabled (MEDIUM: 8192 tokens)").
Proof.
  split.
  - apply (@think_toggle quotedBudgets (Some (Finite 4096)) "" eq_refl).
    reflexivity.
  - apply (@think_toggle quotedBudgets (Some (Finite 0)) "" eq_refl).
    discriminate.
Defined.

(** C5 from an empty cell. *)
Lemma think_absent_turns_off_witness :
  config_getSessionThinkingBudget
    (fst (@think_action quotedBudgets (contextHolding None) ""))
    = Some (Finite 0) /\
  snd (@think_action quotedBudgets (contextHolding None) "")
    = createMessage info "Extended Thinking disabled".
Proof.
  apply (@think_absent_turns_off quotedBudgets
           {| sessionThinkingState := newSessionThinkingState |} "");
    reflexivity.
Defined.

(** C5 as stated fails: from an absent override, /think without argument
    stores 0, not the medium default. *)
Lemma think_absent_not_default :
  config_getSessionThinkingBudget
    (fst (@think_action quotedBudgets (contextHolding None) ""))
    = Some (Finite 0) /\
  config_getSessionThinkingBudget
    (fst (@think_action quotedBudgets (contextHolding None) ""))
    <> Some (Finite (@DEFAULT_THINKING_MODE quotedBudgets)).
Proof. split; [reflexivity | discriminate]. Qed.

(** C10 at "007", and at the canonical "7". *)
Lemma think_requires_canonical_numeral_witness :
  @think_action quotedBudgets (contextHolding (Some (Finite 5))) " 007 "
    = (contextHolding (Some (Finite 5)), thinkUsageError) /\
  snd (@think_action quotedBudgets (contextHolding (Some (Finite 5))) " 7 ")
    <> thinkUsageError.
Proof.
  split.
  - apply (@think_requires_canonical_numeral quotedBudgets
             (contextHolding (Some (Finite 5))) " 007 " eq_refl).
    discriminate.
  - apply (@think_requires_canonical_numeral quotedBudgets
             (contextHolding (Some (Finite 5))) " 7 " eq_refl).
    reflexivity.
Defined.

Example think_rejects_plus_sign :
  @think_action quotedBudgets (contextHolding None) "+5"
    = (contextHolding None, thinkUsageError).
Proof. reflexivity. Qed.

Example think_rejects_fraction :
  @think_action quotedBudgets (contextHolding None) "5.0"
    = (contextHolding None, thinkUsageError).
Proof. reflexivity. Qed.

(** /budget takes all three for numbers. *)
Example budget_accepts_noncanonical :
  map (fun args =>
         config_getSessionThinkingBudget
           (fst (@budget_action quotedBudgets (contextHolding None) args)))
      ["007"; "+5"; "5.0"]
    = [Some (Finite 7); Some (Finite 5); Some (Finite 5)].
Proof. reflexivity. Qed.

(** C6 on a run of five calls: a number, a keyword, a preset, the toggle
    and a rejected number. *)
Lemma stored_budget_invariant_witness :
  let calls :=
    [(@think_action quotedBudgets, "4096");
     (@budget_action quotedBudgets, "max");
     (@think_low quotedBudgets, "");
     (@think_action quotedBudgets, "");
     (@budget_action quotedBudgets, "40000")] in
  config_getSessionThinkingBudget (run calls (contextHolding None))
    = Some (Finite 0) /\
  forall v : number,
    config_getSessionThinkingBudget (run calls (contextHolding None)) = Some v ->
    exists z : Z, v = Finite z /\ (z = -1 \/ z = 0 \/ 0 < z <= 32768).
Proof.
  intros calls. split; [reflexivity |].
  apply (@stored_budget_invariant quotedBudgets).
  - unfold allowedBudget. simpl. lia.
  - unfold allowedBudget. simpl. lia.
  - unfold allowedBudget. simpl. lia.
  - unfold allowedBudget. simpl. lia.
  - subst calls. repeat (apply Forall_cons || apply Forall_nil); simpl.
    + left. reflexivity.
    + do 8 right. left. reflexivity.
    + do 3 right. left. reflexivity.
    + left. reflexivity.
    + do 8 right. left. reflexivity.
  - reflexivity.
Defined.

(** C7 with the quoted thresholds, at the low threshold. *)
Lemma getBudgetLabel_classification_witness :
  @getBudgetLabel quotedBudgets (Finite 2048) = "LOW" /\
  @getBudgetLabel quotedBudgets (Finite 2049) = "MEDIUM".
Proof.
  destruct (@getBudgetLabel_classification quotedBudgets 2048) as [_ H].
  simpl in H. split; apply H; lia.
Defined.

(** C8 from an empty cell. *)
Lemma think_status_absent_witness :
  @think_status quotedBudgets (contextHolding None) ""
    = (contextHolding None,
       createMessage info
         "Extended Thinking: Using model defaults (MEDIUM: 8192 tokens)").
Proof.
  apply (@think_status_absent quotedBudgets (contextHolding None) "").
  reflexivity.
Defined.

(** C9 for /budget with an argument that is no number. *)
Lemma missing_config_is_silent_witness :
  fst (@budget_action quotedBudgets contextWithoutConfig "abc")
    = contextWithoutConfig /\
  forall context : CommandContext,
    fst (@budget_action quotedBudgets context "abc") = context.
Proof.
  pose proof (@missing_config_is_silent quotedBudgets
                (@budget_action quotedBudgets) "abc") as H.
  simpl in H.
  destruct (H ltac:(do 8 right; left; reflexivity)) as (_ & Hfst & _ & Herr).
  split; [exact Hfst |].
  intros context. rewrite (Herr eq_refl context). reflexivity.
Defined.

(** * Further properties of the commands *)

(** ** White space and letter case *)

Lemma isWhiteSpace_lowerChar (c : ascii) :
  isWhiteSpace (lowerChar c) = isWhiteSpace c.
Proof.
  destruct c as [b0 b1 b2 b3 b4 b5 b6 b7].
  destruct b0, b1, b2, b3, b4, b5, b6, b7; reflexivity.
Qed.

Lemma lowerChar_idempotent (c : ascii) : lowerChar (lowerChar c) = lowerChar c.
Proof.
  destruct c as [b0 b1 b2 b3 b4 b5 b6 b7].
  destruct b0, b1, b2, b3, b4, b5, b6, b7; reflexivity.
Qed.

Lemma toLowerCase_idempotent (s : string) :
  toLowerCase (toLowerCase s) = toLowerCase s.
Proof.
  induction s as [| c r IH]; simpl; [reflexivity |].
  rewrite lowerChar_idempotent, IH. reflexivity.
Qed.

Lemma trimStart_toLowerCase (s : string) :
  trimStart (toLowerCase s) = toLowerCase (trimStart s).
Proof.
  induction s as [| c r IH]; simpl; [reflexivity |].
  rewrite isWhiteSpace_lowerChar. destruct (isWhiteSpace c); [exact IH | reflexivity].
Qed.

Lemma isEmpty_toLowerCase (s : string) : isEmpty (toLowerCase s) = isEmpty s.
Proof. destruct s; reflexivity. Qed.

Lemma trimEnd_toLowerCase (s : string) :
  trimEnd (toLowerCase s) = toLowerCase (trimEnd s).
Proof.
  induction s as [| c r IH]; simpl; [reflexivity |].
  rewrite isWhiteSpace_lowerChar, IH, isEmpty_toLowerCase.
  destruct (isWhiteSpace c && isEmpty (trimEnd r))%bool; reflexivity.
Qed.

Lemma trim_toLowerCase (s : string) :
  trim (toLowerCase s) = toLowerCase (trim s).
Proof.
  unfold trim. rewrite trimStart_toLowerCase. apply trimEnd_toLowerCase.
Qed.

Lemma trimStart_app_space (pre s : string) :
  JsString.all isWhiteSpace pre = true -> trimStart (pre ++ s) = trimStart s.
Proof.
  induction pre as [| c r IH]; simpl; [reflexivity |].
  intros H. apply andb_true_iff in H as [Hc Hr]. rewrite Hc. exact (IH Hr).
Qed.

Lemma trimEnd_space (post : string) :
  JsString.all isWhiteSpace post = true -> trimEnd post = "".
Proof.
  induction post as [| c r IH]; simpl; [reflexivity |].
  intros H. apply andb_true_iff in H as [Hc Hr]. rewrite Hc, (IH Hr). reflexivity.
Qed.

Lemma trimEnd_app_space (s post : string) :
  JsString.all isWhiteSpace post = true -> trimEnd (s ++ post) = trimEnd s.
Proof.
  intros H. induction s as [| c r IH]; simpl.
  - apply trimEnd_space, H.
  - rewrite IH. reflexivity.
Qed.

Lemma trimStart_space (post : string) :
  JsString.all isWhiteSpace post = true -> trimStart post = "".
Proof.
  induction post as [| c r IH]; simpl; [reflexivity |].
  intros H. apply andb_true_iff in H as [Hc Hr]. rewrite Hc. exact (IH Hr).
Qed.

Lemma trim_app_space (s post : string) :
  JsString.all isWhiteSpace post = true -> trim (s ++ post) = trim s.
Proof.
  intros H. unfold trim. induction s as [| c r IH]; simpl.
  - rewrite (trimStart_space post H). reflexivity.
  - destruct (isWhiteSpace c); [exact IH |].
    change (String c (r ++ post)) with (String c r ++ post).
    apply trimEnd_app_space, H.
Qed.

(** The string both commands work on, [args.trim().toLowerCase()], is the
    same for an argument and for any re-casing of it between white
    space. *)
Lemma normalize_padding_case (pre args args' post : string) :
  JsString.all isWhiteSpace pre = true ->
  JsString.all isWhiteSpace post = true ->
  toLowerCase args' = toLowerCase args ->
  toLowerCase (trim (pre ++ args' ++ post)) = toLowerCase (trim args).
Proof.
  intros Hpre Hpost Hcase.
  assert (Hpad : trim (pre ++ args' ++ post) = trim args').
  { unfold trim at 1. rewrite trimStart_app_space by assumption.
    apply (trim_app_space args' post Hpost). }
  rewrite Hpad, <- !trim_toLowerCase, Hcase. reflexivity.
Qed.

Section Further.

Context {budgets : ThinkingBudgets}.

(** X1. Both commands ignore white space around the argument and the case
    of its letters: padding an argument with white space on either side
    and re-casing it gives the same message and the same context. *)
Theorem actions_ignore_padding_and_case
    (context : CommandContext) (pre args args' post : string) :
  JsString.all isWhiteSpace pre = true ->
  JsString.all isWhiteSpace post = true ->
  toLowerCase args' = toLowerCase args ->
  think_action context (pre ++ args' ++ post) = think_action context args /\
  budget_action context (pre ++ args' ++ post) = budget_action context args.
Proof.
  intros Hpre Hpost Hcase.
  pose proof (normalize_padding_case pre args args' post Hpre Hpost Hcase) as H.
  unfold think_action, budget_action. rewrite H. split; reflexivity.
Qed.

(** ** Errors and writes *)

Lemma set_set (context : CommandContext) (v w : number) :
  config_setSessionThinkingBudget (config_setSessionThinkingBudget context v) w
  = config_setSessionThinkingBudget context w.
Proof. destruct context as [[[cfg |]]]; reflexivity. Qed.

(** X2. An action that answers with an error-typed message has not
    touched the context: this holds for the nine actions of the two
    commands, from every context and for every argument. *)
Theorem error_leaves_context
    (a : Action) (context : CommandContext) (args : string) :
  In a (actionsOf thinkCommand ++ actionsOf budgetCommand) ->
  messageType (snd (a context args)) = error ->
  fst (a context args) = context.
Proof.
  simpl. intros Ha.
  repeat (destruct Ha as [<- | Ha]); try contradiction;
    try (simpl; discriminate).
  - unfold think_action. repeat branch; simpl; try discriminate; reflexivity.
  - unfold think_status.
    destruct (config_getSessionThinkingBudget context); repeat branch;
      reflexivity.
  - unfold budget_action. repeat branch; simpl; try discriminate; reflexivity.
Qed.

(** What an invocation does to the context depends on the argument alone,
    the bare toggle apart: it leaves every context alone, or it writes
    one value into every context. *)
Lemma think_action_uniform (args : string) :
  isEmpty (toLowerCase (trim args)) = false ->
  (forall context, fst (think_action context args) = context) \/
  (exists v, forall context,
      fst (think_action context args) = config_setSessionThinkingBudget context v).
Proof.
  intros Hne. unfold think_action. rewrite Hne.
  repeat branch; try (left; reflexivity);
    right; eexists; intros context; reflexivity.
Qed.

Lemma budget_action_uniform (args : string) :
  (forall context, fst (budget_action context args) = context) \/
  (exists v, forall context,
      fst (budget_action context args) = config_setSessionThinkingBudget context v).
Proof.
  unfold budget_action.
  repeat branch; try (left; reflexivity);
    right; eexists; intros context; reflexivity.
Qed.

Lemma think_action_message (context context' : CommandContext) (args : string) :
  isEmpty (toLowerCase (trim args)) = false ->
  snd (think_action context args) = snd (think_action context' args).
Proof.
  intros Hne. unfold think_action. rewrite Hne. repeat branch; reflexivity.
Qed.

Lemma think_status_fst (context : CommandContext) (args : string) :
  fst (think_status context args) = context.
Proof.
  unfold think_status.
  destruct (config_getSessionThinkingBudget context); repeat branch; reflexivity.
Qed.

(** X3. Every invocation except the bare toggle is idempotent: calling
    the same action with the same argument a second time gives the same
    message and leaves the context of the first call.  This covers the
    default action of /think with a non-empty argument, its seven
    subcommands, and /budget with any argument. *)
Theorem invocation_idempotent (context : CommandContext) (args : string) :
  (isEmpty (toLowerCase (trim args)) = false ->
   think_action (fst (think_action context args)) args
   = think_action context args) /\
  (forall a : Action,
     In a (map action (subCommands thinkCommand) ++ actionsOf budgetCommand) ->
     a (fst (a context args)) args = a context args).
Proof.
  split.
  - intros Hne.
    rewrite (surjective_pairing (think_action (fst (think_action context args)) args)).
    rewrite (surjective_pairing (think_action context args)) at 3.
    f_equal; [| apply think_action_message, Hne].
    destruct (think_action_uniform args Hne) as [H | [v H]].
    + rewrite !H. reflexivity.
    + rewrite !H. apply set_set.
  - simpl. intros a Ha.
    repeat (destruct Ha as [<- | Ha]); try contradiction;
      try (rewrite think_status_fst; reflexivity);
      try (destruct context as [[[cfg |]]]; reflexivity).
    unfold budget_action.
    destruct (isEmpty (toLowerCase (trim args))); [reflexivity |].
    repeat branch; try reflexivity;
      destruct context as [[[cfg |]]]; reflexivity.
Qed.

(** ** The toggle, repeated *)

(** X4. With a positive default, the bare toggle settles into a cycle of
    two: its first use leaves 0 or the default, from 0 it goes to the
    default and from the default to 0, so two further uses always come
    back to where the first one ended. *)
Theorem toggle_alternates (stored : option number) :
  0 < DEFAULT_THINKING_MODE ->
  let toggle := fun context : CommandContext => fst (think_action context "") in
  let once := toggle (contextHolding stored) in
  (once = contextHolding (Some (Finite 0)) \/
   once = contextHolding (Some (Finite DEFAULT_THINKING_MODE))) /\
  toggle (contextHolding (Some (Finite 0)))
    = contextHolding (Some (Finite DEFAULT_THINKING_MODE)) /\
  toggle (contextHolding (Some (Finite DEFAULT_THINKING_MODE)))
    = contextHolding (Some (Finite 0)) /\
  toggle (toggle once) = once.
Proof.
  intros Hd toggle once.
  assert (Hzero : toggle (contextHolding (Some (Finite 0)))
                  = contextHolding (Some (Finite DEFAULT_THINKING_MODE)))
    by reflexivity.
  assert (Hdef : toggle (contextHolding (Some (Finite DEFAULT_THINKING_MODE)))
                 = contextHolding (Some (Finite 0))).
  { unfold toggle. rewrite (think_action_empty _ "" eq_refl).
    change (config_getSessionThinkingBudget
              (contextHolding (Some (Finite DEFAULT_THINKING_MODE))))
      with (Some (Finite DEFAULT_THINKING_MODE)).
    unfold gt, THINKING_BUDGET_OFF. simpl lt.
    destruct (Z.ltb_spec 0 DEFAULT_THINKING_MODE); [reflexivity | lia]. }
  assert (Honce : once = contextHolding (Some (Finite 0)) \/
                  once = contextHolding (Some (Finite DEFAULT_THINKING_MODE))).
  { subst once. unfold toggle. rewrite (think_action_empty _ "" eq_refl).
    change (config_getSessionThinkingBudget (contextHolding stored)) with stored.
    destruct stored as [v |]; [| left; reflexivity].
    destruct (gt v (Finite THINKING_BUDGET_OFF)); [left | right]; reflexivity. }
  repeat split; try assumption.
  destruct Honce as [-> | ->]; rewrite ?Hzero, ?Hdef, ?Hzero; reflexivity.
Qed.

(** ** The two commands side by side *)

(** X5. Whatever the default action of /think takes for a number, /budget
    takes for the same number: for an argument that passes the numeric
    test of /think, both commands leave the same context and answer with
    a message of the same type. *)
Theorem budget_agrees_with_think_on_numbers
    (context : CommandContext) (args : string) :
  let trimmedArgs := toLowerCase (trim args) in
  isNaN (parseInt trimmedArgs) = false ->
  trimmedArgs = toString (parseInt trimmedArgs) ->
  fst (budget_action context args) = fst (think_action context args) /\
  messageType (snd (budget_action context args))
    = messageType (snd (think_action context args)).
Proof.
  intros t Hnum Hcanon. subst t.
  unfold budget_action, think_action.
  set (t := toLowerCase (trim args)) in *.
  rewrite Hnum, <- Hcanon, String.eqb_refl. cbn [negb andb].
  assert (Hne : isEmpty t = false) by (destruct t; [discriminate Hnum | reflexivity]).
  rewrite Hne.
  repeat match goal with
  | |- context [String.eqb t ?k] =>
      destruct (String.eqb_spec t k) as [E | _];
        [rewrite E in Hnum; discriminate Hnum |]
  end.
  cbn [orb]. repeat branch; split; reflexivity.
Qed.

(** X6. The subcommands are shortcuts for numbers: when the presets and
    the default are allowed budgets, /think low, medium, high and on
    leave the context that typing the preset's number to /think or to
    /budget leaves; /think off does what the number 0 and the /budget
    keywords off and disabled do, and /think unlimited what -1 and the
    keywords unlimited and max do. *)
Theorem subcommands_are_shortcuts (context : CommandContext) (args : string) :
  allowedBudget THINKING_BUDGET_LOW ->
  allowedBudget THINKING_BUDGET_MEDIUM ->
  allowedBudget THINKING_BUDGET_HIGH ->
  allowedBudget DEFAULT_THINKING_MODE ->
  (forall (preset : Z) (sub : Action),
     In (preset, sub)
        [(THINKING_BUDGET_LOW, think_low); (THINKING_BUDGET_MEDIUM, think_medium);
         (THINKING_BUDGET_HIGH, think_high); (DEFAULT_THINKING_MODE, think_on);
         (0, think_off); (-1, think_unlimited)] ->
     fst (think_action context (decimal preset)) = fst (sub context args) /\
     fst (budget_action context (decimal preset)) = fst (sub context args)) /\
  (forall keyword : string,
     In keyword ["off"; "disabled"] ->
     fst (budget_action context keyword) = fst (think_off context args)) /\
  (forall keyword : string,
     In keyword ["unlimited"; "max"] ->
     fst (budget_action context keyword) = fst (think_unlimited context args)).
Proof.
  intros Hl Hm Hh Hd.
  assert (Hnum : forall z, allowedBudget z ->
            fst (think_action context (decimal z))
              = config_setSessionThinkingBudget context (Finite z) /\
            fst (budget_action context (decimal z))
              = config_setSessionThinkingBudget context (Finite z)).
  { intros z Hz. unfold allowedBudget in Hz.
    rewrite think_action_numeral by lia. rewrite budget_action_numeral.
    destruct (Z.ltb_spec z (-1)); [lia |].
    destruct (Z.ltb_spec 32768 z); [lia |].
    cbv zeta. split; [repeat branch |]; reflexivity. }
  split; [| split].
  - intros preset sub Hin. simpl in Hin.
    repeat (destruct Hin as [[= <- <-] | Hin]); try contradiction;
      apply Hnum; try assumption; unfold allowedBudget; lia.
  - intros keyword Hin. simpl in Hin.
    repeat (destruct Hin as [<- | Hin]); try contradiction; reflexivity.
  - intros keyword Hin. simpl in Hin.
    repeat (destruct Hin as [<- | Hin]); try contradiction; reflexivity.
Qed.

(** ** Reports *)

Lemma budget_action_show (context : CommandContext) :
  budget_action context "" =
    (context,
     createMessage info
       ("Thinking Budget: "
          ++ match config_getSessionThinkingBudget context with
             | None => "Default (" ++ toString (Finite DEFAULT_THINKING_MODE) ++ " tokens)"
             | Some current =>
                 if strictEq current (Finite (-1)) then "Unlimited"
                 else if strictEq current (Finite 0) then "Disabled (0 tokens)"
                 else toString current ++ " tokens"
             end
          ++ LF ++ LF ++ "Use /stats to see token usage for this session.")).
Proof.
  unfold budget_action. cbn [trim trimStart trimEnd toLowerCase isEmpty].
  destruct (config_getSessionThinkingBudget context) as [v |]; [| reflexivity].
  unfold THINKING_BUDGET_UNLIMITED, THINKING_BUDGET_OFF.
  repeat branch; reflexivity.
Qed.

(** X7. What was set is what is shown: after the default action of /think
    or /budget has stored the number [n] of [-1, 32768], /budget without
    argument and /think status both report it, as "Unlimited" and
    "UNLIMITED" for -1, as "Disabled (0 tokens)" and "DISABLED" for 0, and
    with the digits of [n] otherwise (and its label, for /think status);
    neither report changes the context. *)
Theorem report_after_set (stored : option number) (n : Z) (setter : Action) :
  -1 <= n <= 32768 ->
  In setter [think_action; budget_action] ->
  let context := fst (setter (contextHolding stored) (decimal n)) in
  budget_action context "" =
    (context,
     createMessage info
       ("Thinking Budget: "
          ++ (if n =? -1 then "Unlimited"
              else if n =? 0 then "Disabled (0 tokens)"
              else decimal n ++ " tokens")
          ++ LF ++ LF ++ "Use /stats to see token usage for this session.")) /\
  think_status context "" =
    (context,
     createMessage info
       (if n =? -1 then "Extended Thinking: UNLIMITED"
        else if n =? 0 then "Extended Thinking: DISABLED"
        else "Extended Thinking: " ++ decimal n ++ " tokens ("
               ++ getBudgetLabel (Finite n) ++ ")")).
Proof.
  intros Hn Hin context.
  assert (Hctx : context = contextHolding (Some (Finite n))).
  { subst context. simpl in Hin. destruct Hin as [<- | [<- | []]].
    - rewrite think_action_numeral by lia.
      destruct (Z.ltb_spec n (-1)); [lia |].
      destruct (Z.ltb_spec 32768 n); [lia |].
      cbv zeta. repeat branch; reflexivity.
    - rewrite budget_action_numeral.
      destruct (Z.ltb_spec n (-1)); [lia |].
      destruct (Z.ltb_spec 32768 n); [lia |]. reflexivity. }
  rewrite Hctx. split.
  - rewrite budget_action_show.
    change (config_getSessionThinkingBudget (contextHolding (Some (Finite n))))
      with (Some (Finite n)).
    cbv beta iota. rewrite toString_small by lia. reflexivity.
  - unfold think_status.
    change (config_getSessionThinkingBudget (contextHolding (Some (Finite n))))
      with (Some (Finite n)).
    cbv beta iota. rewrite toString_small by lia.
    unfold THINKING_BUDGET_UNLIMITED, THINKING_BUDGET_OFF. cbn [strictEq].
    destruct (n =? -1); [reflexivity |]. destruct (n =? 0); reflexivity.
Qed.

(** X8. After a preset subcommand, /think status names the preset's tier:
    with thresholds [0 < low < medium < high] it reports LOW after
    /think low, MEDIUM after /think medium and HIGH after /think high,
    and UNLIMITED and DISABLED after /think unlimited and /think off. *)
Theorem status_after_preset (cfg : Config) (args args' : string) :
  0 < THINKING_BUDGET_LOW < THINKING_BUDGET_MEDIUM ->
  THINKING_BUDGET_MEDIUM < THINKING_BUDGET_HIGH ->
  let status := fun sub : Action =>
    snd (think_status
           (fst (sub {| services := {| config := Some cfg |} |} args)) args') in
  status think_low =
    createMessage info
      ("Extended Thinking: " ++ toString (Finite THINKING_BUDGET_LOW)
         ++ " tokens (LOW)") /\
  status think_medium =
    createMessage info
      ("Extended Thinking: " ++ toString (Finite THINKING_BUDGET_MEDIUM)
         ++ " tokens (MEDIUM)") /\
  status think_high =
    createMessage info
      ("Extended Thinking: " ++ toString (Finite THINKING_BUDGET_HIGH)
         ++ " tokens (HIGH)") /\
  status think_unlimited = createMessage info "Extended Thinking: UNLIMITED" /\
  status think_off = createMessage info "Extended Thinking: DISABLED".
Proof.
  intros Hlm Hmh status. subst status.
  assert (Hstatus : forall z : Z,
    snd (think_status
           (config_setSessionThinkingBudget
              {| services := {| config := Some cfg |} |} (Finite z)) args')
    = createMessage info
        (if z =? -1 then "Extended Thinking: UNLIMITED"
         else if z =? 0 then "Extended Thinking: DISABLED"
         else "Extended Thinking: " ++ toString (Finite z) ++ " tokens ("
                ++ (if z <=? THINKING_BUDGET_LOW then "LOW"
                    else if z <=? THINKING_BUDGET_MEDIUM then "MEDIUM"
                    else if z <=? THINKING_BUDGET_HIGH then "HIGH"
                    else "EXTREME") ++ ")")).
  { intros z. unfold think_status, getBudgetLabel.
    change (config_getSessionThinkingBudget
              (config_setSessionThinkingBudget
                 {| services := {| config := Some cfg |} |} (Finite z)))
      with (Some (Finite z)).
    unfold THINKING_BUDGET_UNLIMITED, THINKING_BUDGET_OFF. cbn [strictEq le].
    destruct (z =? -1); [reflexivity |]. destruct (z =? 0); reflexivity. }
  cbn beta.
  unfold think_low, think_medium, think_high, think_unlimited, think_off.
  cbn [fst]. rewrite !Hstatus.
  repeat split;
    repeat match goal with
    | |- context [?x =? ?y] => destruct (Z.eqb_spec x y); try lia
    | |- context [?x <=? ?y] => destruct (Z.leb_spec x y); try lia
    end; reflexivity.
Qed.

(** X9. The confirmation repeats the number typed: for [n] from 1 to
    32768 the default action of /think answers "Extended Thinking set to
    <n> tokens (<label of n>)" and /budget answers "Thinking budget set to
    <n> tokens", both as info messages; -1 and 0 are confirmed in words
    (UNLIMITED / unlimited, disabled). *)
Theorem confirmation_repeats_number (context : CommandContext) (n : Z) :
  -1 <= n <= 32768 ->
  snd (think_action context (decimal n)) =
    createMessage info
      (if n =? -1 then "Extended Thinking set to UNLIMITED"
       else if n =? 0 then "Extended Thinking disabled"
       else "Extended Thinking set to " ++ decimal n ++ " tokens ("
              ++ getBudgetLabel (Finite n) ++ ")") /\
  snd (budget_action context (decimal n)) =
    createMessage info
      ("Thinking budget set to "
         ++ (if n =? -1 then "unlimited"
             else if n =? 0 then "disabled"
             else decimal n ++ " tokens")).
Proof.
  intros Hn. rewrite think_action_numeral by lia. rewrite budget_action_numeral.
  destruct (Z.ltb_spec n (-1)); [lia |].
  destruct (Z.ltb_spec 32768 n); [lia |].
  cbv zeta. split; [repeat branch |]; reflexivity.
Qed.

(** X10. The tiers are monotone: of two positive budgets the larger never
    gets a lower tier, whatever the thresholds are, and a positive budget
    is never labelled UNLIMITED or OFF. *)
Theorem getBudgetLabel_monotone (b1 b2 : Z) :
  0 < b1 <= b2 ->
  (1 <= tierRank (getBudgetLabel (Finite b1))
     <= tierRank (getBudgetLabel (Finite b2)))%nat.
Proof.
  intros Hb.
  assert (label : forall x : Z, 0 < x ->
    getBudgetLabel (Finite x) =
      if x <=? THINKING_BUDGET_LOW then "LOW"
      else if x <=? THINKING_BUDGET_MEDIUM then "MEDIUM"
      else if x <=? THINKING_BUDGET_HIGH then "HIGH" else "EXTREME").
  { intros x Hx. unfold getBudgetLabel, THINKING_BUDGET_UNLIMITED, THINKING_BUDGET_OFF.
    cbn [strictEq le].
    destruct (Z.eqb_spec x (-1)); [lia |]. destruct (Z.eqb_spec x 0); [lia |].
    reflexivity. }
  rewrite !label by lia.
  repeat match goal with
  | |- context [?x <=? ?y] => destruct (Z.leb_spec x y); try lia
  end; cbn; lia.
Qed.

End Further.

(** ** The cell, used repeatedly *)

(** X11. The cell is a register: after any sequence of [setOverride] and
    [clearOverride] calls it holds what the last call left, the value of a
    final [setOverride] or nothing after a final [clearOverride]; and
    [hasOverride] is true exactly when [getActiveOverride] is not null. *)
Theorem cell_keeps_last_write (ops : list CellOp) (cell : SessionThinkingState) :
  (forall budget : option number,
     getActiveOverride (applyOps (ops ++ [OpSet budget]) cell) = budget) /\
  getActiveOverride (applyOps (ops ++ [OpClear]) cell) = None /\
  hasOverride (applyOps (ops ++ [OpClear]) cell) = false /\
  (hasOverride (applyOps ops cell) = true <->
   getActiveOverride (applyOps ops cell) <> None).
Proof.
  unfold applyOps. repeat split.
  - intros budget. rewrite fold_left_app. reflexivity.
  - rewrite fold_left_app. reflexivity.
  - rewrite fold_left_app. reflexivity.
  - unfold hasOverride, getActiveOverride.
    destruct (activeOverride (fold_left applyOp ops cell)); [discriminate | discriminate].
  - unfold hasOverride, getActiveOverride.
    destruct (activeOverride (fold_left applyOp ops cell)); [reflexivity | congruence].
Qed.

(** ** Text after a number *)

Lemma digitPrefix_nil_iff (c : ascii) (r : string) :
  digitPrefix (String c r) = Nil <-> digitOf c = None.
Proof.
  destruct c as [b0 b1 b2 b3 b4 b5 b6 b7].
  destruct b0, b1, b2, b3, b4, b5, b6, b7; simpl; split; intros H;
    try reflexivity; discriminate H.
Qed.

Lemma digitOf_lowerChar (c : ascii) :
  digitOf c = None -> digitOf (lowerChar c) = None.
Proof.
  destruct c as [b0 b1 b2 b3 b4 b5 b6 b7].
  destruct b0, b1, b2, b3, b4, b5, b6, b7; intros H;
    try reflexivity; discriminate H.
Qed.

Lemma digitPrefix_trimEnd (rest : string) :
  digitPrefix rest = Nil -> digitPrefix (trimEnd rest) = Nil.
Proof.
  destruct rest as [| c r]; [reflexivity |]. intros H.
  apply digitPrefix_nil_iff in H. cbn [trimEnd].
  destruct (isWhiteSpace c && isEmpty (trimEnd r))%bool; [reflexivity |].
  apply digitPrefix_nil_iff, H.
Qed.

Lemma digitPrefix_toLowerCase (rest : string) :
  digitPrefix rest = Nil -> digitPrefix (toLowerCase rest) = Nil.
Proof.
  destruct rest as [| c r]; [reflexivity |]. intros H.
  apply digitPrefix_nil_iff in H. cbn [toLowerCase].
  apply digitPrefix_nil_iff, digitOf_lowerChar, H.
Qed.

Lemma digitPrefix_app (d : uint) (rest : string) :
  digitPrefix rest = Nil ->
  digitPrefix (NilEmpty.string_of_uint d ++ rest) = d.
Proof.
  intros H. induction d; simpl; congruence.
Qed.

Lemma trimEnd_app_plain (a b : string) :
  JsString.all plainChar a = true -> trimEnd (a ++ b) = a ++ trimEnd b.
Proof.
  induction a as [| c r IH]; simpl; [reflexivity |].
  intros H. apply andb_true_iff in H as [Hc Hr].
  apply andb_true_iff in Hc as [Hw _]. apply negb_true_iff in Hw.
  rewrite Hw, (IH Hr). reflexivity.
Qed.

Lemma toLowerCase_app (a b : string) :
  toLowerCase (a ++ b) = toLowerCase a ++ toLowerCase b.
Proof.
  induction a as [| c r IH]; simpl; [reflexivity |]. rewrite IH. reflexivity.
Qed.

Lemma normalize_decimal_app (z : Z) (rest : string) :
  toLowerCase (trim (decimal z ++ rest))
  = decimal z ++ toLowerCase (trimEnd rest).
Proof.
  unfold trim.
  assert (Hs : trimStart (decimal z ++ rest) = decimal z ++ rest).
  { pose proof (decimal_plain z) as Hp. pose proof (decimal_nonempty z) as Hne.
    destruct (decimal z) as [| c r]; [discriminate Hne |].
    simpl in *. apply andb_true_iff in Hp as [Hc _].
    apply andb_true_iff in Hc as [Hw _]. apply negb_true_iff in Hw.
    rewrite Hw. reflexivity. }
  rewrite Hs, trimEnd_app_plain by apply decimal_plain.
  rewrite toLowerCase_app, toLowerCase_plain by apply decimal_plain.
  reflexivity.
Qed.

Lemma parseInt_decimal_app (z : Z) (rest : string) :
  digitPrefix rest = Nil -> parseInt (decimal z ++ rest) = ofInteger z.
Proof.
  intros Hrest.
  destruct (decimal_shape z) as (d & Hd & [(Hz & -> & Hv) | (Hz & -> & Hv)]).
  - unfold parseInt.
    assert (Hs : forall s, s = NilEmpty.string_of_uint d ->
              trimStart (s ++ rest) = s ++ rest /\
              (match s ++ rest with
               | String "-" r => (true, r)
               | String "+" r => (false, r)
               | _ => (false, s ++ rest)
               end) = (false, s ++ rest)).
    { intros s ->. destruct d; try congruence; split; reflexivity. }
    destruct (Hs _ eq_refl) as [-> ->].
    rewrite digitPrefix_app by assumption.
    destruct d; try congruence; cbv beta iota zeta; rewrite Hv; reflexivity.
  - unfold parseInt. simpl trimStart. cbv iota beta.
    rewrite digitPrefix_app by assumption.
    destruct d; try congruence; cbv beta iota zeta; rewrite Hv;
      f_equal; lia.
Qed.

Lemma decimal_app_nonempty (z : Z) (rest : string) :
  isEmpty (decimal z ++ rest) = false.
Proof.
  pose proof (decimal_nonempty z). destruct (decimal z); [discriminate | reflexivity].
Qed.

Lemma decimal_app_not_keyword (z : Z) (rest k : string) :
  In k ["unlimited"; "max"; "off"; "disabled"] ->
  String.eqb (decimal z ++ rest) k = false.
Proof.
  intros Hk.
  destruct (decimal_shape z) as (d & Hd & [(_ & -> & _) | (_ & -> & _)]);
    simpl in Hk; intuition subst; try (destruct d; try congruence; reflexivity);
    reflexivity.
Qed.

Lemma app_not_self (a b : string) : b <> "" -> a ++ b <> a.
Proof.
  intros Hb. induction a as [| c r IH]; simpl; [exact Hb |].
  intros [= E]. exact (IH E).
Qed.

Section LeadingNumber.

Context {budgets : ThinkingBudgets}.

(** X12. /budget reads the number an argument starts with and ignores the
    rest: a numeral followed by any text that does not begin with a digit
    is handled exactly as the numeral alone (same context, same message),
    for every integer.  The default action of /think answers such an
    argument with the usage error and leaves the context alone (shown for
    integers below 2^53 in magnitude and text that is not only white
    space). *)
Theorem budget_reads_leading_number
    (context : CommandContext) (n : Z) (rest : string) :
  digitPrefix rest = Nil ->
  budget_action context (decimal n ++ rest) = budget_action context (decimal n) /\
  (Z.abs n < 2 ^ 53 -> trimEnd rest <> "" ->
   think_action context (decimal n ++ rest) = (context, thinkUsageError)).
Proof.
  intros Hrest.
  assert (Hrest' : digitPrefix (toLowerCase (trimEnd rest)) = Nil)
    by apply digitPrefix_toLowerCase, digitPrefix_trimEnd, Hrest.
  split.
  - unfold budget_action.
    rewrite normalize_decimal_app, normalize_decimal.
    rewrite decimal_app_nonempty, decimal_nonempty.
    rewrite !decimal_app_not_keyword, !decimal_not_keyword by (simpl; tauto).
    rewrite parseInt_decimal_app, parseInt_decimal by assumption.
    reflexivity.
  - intros Hn Hne. unfold think_action.
    rewrite normalize_decimal_app, parseInt_decimal_app by assumption.
    rewrite (ofInteger_small n Hn), (toString_small n Hn).
    destruct (String.eqb_spec (decimal n ++ toLowerCase (trimEnd rest)) (decimal n))
      as [E | _].
    + exfalso. revert E. apply app_not_self.
      destruct (trimEnd rest); [congruence | discriminate].
    + rewrite andb_false_r, decimal_app_nonempty. reflexivity.
Qed.

End LeadingNumber.

Section Acceptance.

Context {budgets : ThinkingBudgets}.

Lemma think_action_normalized (context : CommandContext) (a b : string) :
  toLowerCase (trim a) = toLowerCase (trim b) ->
  think_action context a = think_action context b.
Proof.
  intros H. unfold think_action. rewrite H. reflexivity.
Qed.

(** X13. What the default action of /think accepts: it answers with an
    info message exactly when the trimmed, lower-cased argument is empty
    (the toggle) or is the decimal numeral of an integer of [-1, 32768];
    every other argument gets an error. *)
Theorem think_action_accepts_exactly (context : CommandContext) (args : string) :
  let trimmedArgs := toLowerCase (trim args) in
  messageType (snd (think_action context args)) = info <->
  (trimmedArgs = "" \/
   exists n : Z, -1 <= n <= 32768 /\ trimmedArgs = decimal n).
Proof.
  intros t. subst t. split.
  - unfold think_action.
    set (t := toLowerCase (trim args)).
    destruct (negb (isNaN (parseInt t)) && String.eqb t (toString (parseInt t)))%bool
      eqn:Hnum.
    + apply andb_true_iff in Hnum as [Hnan Heq].
      apply negb_true_iff in Hnan. apply String.eqb_eq in Heq.
      destruct (lt (parseInt t) (Finite (-1))) eqn:Hlo; [discriminate |].
      destruct (gt (parseInt t) (Finite 32768)) eqn:Hhi; [discriminate |].
      intros _. right.
      destruct (in_range_valid _ Hnan Hlo Hhi) as (z & Hz & Hallowed).
      unfold allowedBudget in Hallowed.
      exists z. split; [lia |].
      rewrite Heq, Hz. apply toString_small. lia.
    + destruct t; [left; reflexivity | discriminate].
  - intros [Hempty | (n & Hn & Hnum)].
    + unfold think_action. rewrite Hempty. cbn. repeat branch; reflexivity.
    + rewrite (think_action_normalized context args (decimal n))
        by (rewrite normalize_decimal; exact Hnum).
      rewrite think_action_numeral by lia.
      destruct (Z.ltb_spec n (-1)); [lia |].
      destruct (Z.ltb_spec 32768 n); [lia |].
      cbv zeta. repeat branch; reflexivity.
Qed.

(** X14. The two reports only read: /think status, for every argument,
    and /budget with an empty argument return an info message and the
    context they were given, whatever is stored in it and also when
    there is no configuration object. *)
Theorem reports_only_read (context : CommandContext) (args : string) :
  (fst (think_status context args) = context /\
   messageType (snd (think_status context args)) = info) /\
  (trim args = "" ->
   fst (budget_action context args) = context /\
   messageType (snd (budget_action context args)) = info).
Proof.
  split.
  - unfold think_status.
    destruct (config_getSessionThinkingBudget context); repeat branch;
      split; reflexivity.
  - intros Hargs. unfold budget_action. rewrite Hargs. split; reflexivity.
Qed.

(** X15. What /budget accepts: it answers with an info message exactly
    when the trimmed, lower-cased argument is empty (the report), is one
    of the keywords unlimited, max, off and disabled, or starts, after an
    optional sign, with digits that [parseInt] reads as an integer of
    [-1, 32768]; every other argument gets an error. *)
Theorem budget_action_accepts_exactly (context : CommandContext) (args : string) :
  let trimmedArgs := toLowerCase (trim args) in
  messageType (snd (budget_action context args)) = info <->
  (trimmedArgs = "" \/
   In trimmedArgs ["unlimited"; "max"; "off"; "disabled"] \/
   exists z : Z, -1 <= z <= 32768 /\ parseInt trimmedArgs = Finite z).
Proof.
  intros t. subst t. unfold budget_action.
  generalize (toLowerCase (trim args)). intros t.
  destruct t as [| c r]; [cbn [isEmpty]; split; [left |]; reflexivity |].
  cbn [isEmpty]. set (t := String c r).
  assert (Hne : t <> "") by discriminate.
  destruct (String.eqb_spec t "unlimited") as [E | N1];
    [cbn [orb]; split; [intros _; right; left; rewrite E; simpl; tauto | reflexivity] |].
  destruct (String.eqb_spec t "max") as [E | N2];
    [cbn [orb]; split; [intros _; right; left; rewrite E; simpl; tauto | reflexivity] |].
  destruct (String.eqb_spec t "off") as [E | N3];
    [cbn [orb]; split; [intros _; right; left; rewrite E; simpl; tauto | reflexivity] |].
  destruct (String.eqb_spec t "disabled") as [E | N4];
    [cbn [orb]; split; [intros _; right; left; rewrite E; simpl; tauto | reflexivity] |].
  cbn [orb].
  destruct (isNaN (parseInt t)) eqn:Hnan.
  { split; [discriminate |].
    intros [E | [Hk | (z & _ & Hz)]].
    - congruence.
    - simpl in Hk. intuition congruence.
    - rewrite Hz in Hnan. discriminate Hnan. }
  destruct (lt (parseInt t) (Finite (-1))) eqn:Hlo.
  { split; [discriminate |].
    intros [E | [Hk | (z & Hr & Hz)]].
    - congruence.
    - simpl in Hk. intuition congruence.
    - rewrite Hz in Hlo. simpl in Hlo. apply Z.ltb_lt in Hlo. lia. }
  destruct (gt (parseInt t) (Finite 32768)) eqn:Hhi.
  { split; [discriminate |].
    intros [E | [Hk | (z & Hr & Hz)]].
    - congruence.
    - simpl in Hk. intuition congruence.
    - rewrite Hz in Hhi. unfold gt in Hhi. simpl in Hhi.
      apply Z.ltb_lt in Hhi. lia. }
  split; [| reflexivity].
  intros _. right. right.
  destruct (in_range_valid _ Hnan Hlo Hhi) as (z & Hz & Hallowed).
  unfold allowedBudget in Hallowed. exists z. split; [lia | exact Hz].
Qed.

End Acceptance.

(** ** Concrete runs of the further properties *)

(** X1 on a padded number and a re-cased, padded keyword. *)
Lemma actions_ignore_padding_and_case_witness :
  @think_action quotedBudgets (contextHolding None) "  4096 "
    = @think_action quotedBudgets (contextHolding None) "4096" /\
  @budget_action quotedBudgets (contextHolding None) " MaX  "
    = @budget_action quotedBudgets (contextHolding None) "max".
Proof.
  split.
  - apply (@actions_ignore_padding_and_case quotedBudgets
             (contextHolding None) "  " "4096" "4096" " "); reflexivity.
  - apply (@actions_ignore_padding_and_case quotedBudgets
             (contextHolding None) " " "max" "MaX" "  "); reflexivity.
Defined.

(** X2 for /budget with an argument that is no number, 5 stored. *)
Lemma error_leaves_context_witness :
  fst (@budget_action quotedBudgets (contextHolding (Some (Finite 5))) "abc")
    = contextHolding (Some (Finite 5)).
Proof.
  apply (@error_leaves_context quotedBudgets (@budget_action quotedBudgets)).
  - simpl. do 8 right. left. reflexivity.
  - reflexivity.
Defined.

(** X4 with the quoted default, 8192. *)
Lemma toggle_alternates_witness :
  fst (@think_action quotedBudgets (contextHolding (Some (Finite 0))) "")
    = contextHolding (Some (Finite 8192)) /\
  fst (@think_action quotedBudgets (contextHolding (Some (Finite 8192))) "")
    = contextHolding (Some (Finite 0)).
Proof.
  destruct (@toggle_alternates quotedBudgets (Some (Finite 4096)))
    as (_ & Hzero & Hdefault & _).
  - reflexivity.
  - split; [exact Hzero | exact Hdefault].
Defined.

(** X5 at a padded 4096. *)
Lemma budget_agrees_with_think_on_numbers_witness :
  fst (@budget_action quotedBudgets (contextHolding None) " 4096 ")
    = fst (@think_action quotedBudgets (contextHolding None) " 4096 ") /\
  messageType (snd (@budget_action quotedBudgets (contextHolding None) " 4096 "))
    = messageType (snd (@think_action quotedBudgets (contextHolding None) " 4096 ")).
Proof.
  apply (@budget_agrees_with_think_on_numbers quotedBudgets
           (contextHolding None) " 4096 "); reflexivity.
Defined.

(** X6 with the quoted budgets, for /think low. *)
Lemma subcommands_are_shortcuts_witness :
  fst (@think_action quotedBudgets (contextHolding None) "2048")
    = fst (@think_low quotedBudgets (contextHolding None) "") /\
  fst (@budget_action quotedBudgets (contextHolding None) "2048")
    = fst (@think_low quotedBudgets (contextHolding None) "").
Proof.
  destruct (@subcommands_are_shortcuts quotedBudgets (contextHolding None) "")
    as (Hpreset & _ & _).
  - unfold allowedBudget. simpl. lia.
  - unfold allowedBudget. simpl. lia.
  - unfold allowedBudget. simpl. lia.
  - unfold allowedBudget. simpl. lia.
  - apply (Hpreset 2048 (@think_low quotedBudgets)). left. reflexivity.
Defined.

(** X7 for /budget 4096 followed by /budget. *)
Lemma report_after_set_witness :
  content
    (snd (@budget_action quotedBudgets
            (fst (@budget_action quotedBudgets (contextHolding None) "4096")) ""))
  = "Thinking Budget: 4096 tokens" ++ LF ++ LF
      ++ "Use /stats to see token usage for this session.".
Proof.
  destruct (@report_after_set quotedBudgets None 4096
              (@budget_action quotedBudgets)) as [Hshow _].
  - lia.
  - right. left. reflexivity.
  - change (decimal 4096) with "4096" in Hshow. rewrite Hshow. reflexivity.
Defined.

(** X8 with the quoted thresholds, for /think high. *)
Lemma status_after_preset_witness :
  snd (@think_status quotedBudgets
         (fst (@think_high quotedBudgets (contextHolding None) "")) "")
  = createMessage info "Extended Thinking: 16384 tokens (HIGH)".
Proof.
  destruct (@status_after_preset quotedBudgets
              {| sessionThinkingState := newSessionThinkingState |} "" "")
    as (_ & _ & Hhigh & _).
  - simpl. lia.
  - simpl. lia.
  - exact Hhigh.
Defined.

(** X9 at 4096. *)
Lemma confirmation_repeats_number_witness :
  snd (@think_action quotedBudgets (contextHolding None) "4096")
    = createMessage info "Extended Thinking set to 4096 tokens (MEDIUM)" /\
  snd (@budget_action quotedBudgets (contextHolding None) "4096")
    = createMessage info "Thinking budget set to 4096 tokens".
Proof.
  apply (@confirmation_repeats_number quotedBudgets (contextHolding None) 4096).
  lia.
Defined.

(** X10 across the low threshold. *)
Lemma getBudgetLabel_monotone_witness :
  (1 <= tierRank (@getBudgetLabel quotedBudgets (Finite 2048))
     <= tierRank (@getBudgetLabel quotedBudgets (Finite 2049)))%nat.
Proof.
  apply (@getBudgetLabel_monotone quotedBudgets 2048 2049). lia.
Defined.

(** X12 at the argument 12abc. *)
Lemma budget_reads_leading_number_witness :
  @budget_action quotedBudgets (contextHolding None) "12abc"
    = @budget_action quotedBudgets (contextHolding None) "12" /\
  @think_action quotedBudgets (contextHolding None) "12abc"
    = (contextHolding None, thinkUsageError).
Proof.
  destruct (@budget_reads_leading_number quotedBudgets
              (contextHolding None) 12 "abc" eq_refl) as [Hbudget Hthink].
  split; [exact Hbudget |].
  apply Hthink; [reflexivity | discriminate].
Defined.
